(** * Tweet_Analyzer: the sentiment page of [app.py]

    A shallow embedding of [app.py] and the properties of its text-cleaning
    pipeline, its classifier wrapper, its loader, its scraper set-up, its
    card renderer and its [main] script.

    Python strings are sequences of Unicode code points; the library calls
    the script makes (pickle, nltk, ntscraper, scikit-learn, streamlit) are
    taken through an explicit environment of outcomes. *)

From Stdlib Require Import String Ascii DecimalString.
From Stdlib Require Import List NArith ZArith Bool Lia.
Import ListNotations.

Set Implicit Arguments.

(* ================================================================== *)
(** ** Python strings *)

Module PyStr.

(** A code point, and a [str] as the sequence of its code points. *)
Definition char := N.
Definition str := list char.

(** A literal of the source, read byte by byte (the literals used here
    are ASCII). *)
Definition lit (s : string) : str :=
  map N_of_ascii (list_ascii_of_string s).

Definition space : char := 32%N.

Definition is_upper_ascii (c : char) : bool :=
  ((65 <=? c) && (c <=? 90))%N.

Definition is_lower_ascii (c : char) : bool :=
  ((97 <=? c) && (c <=? 122))%N.

(** The character class [a-zA-Z]. *)
Definition is_ascii_letter (c : char) : bool :=
  is_lower_ascii c || is_upper_ascii c.

Definition is_ascii (c : char) : bool := (c <? 128)%N.

(** [str.isspace] on one code point: the Unicode white space that
    [str.split()] and [str.strip()] use. *)
Definition isspace (c : char) : bool :=
  (((9 <=? c) && (c <=? 13)) || ((28 <=? c) && (c <=? 32))
   || (c =? 133) || (c =? 160) || (c =? 5760)
   || ((8192 <=? c) && (c <=? 8202))
   || (c =? 8232) || (c =? 8233) || (c =? 8239) || (c =? 8287)
   || (c =? 12288))%N.

(** [==] on [str]. *)
Fixpoint str_eqb (a b : str) : bool :=
  match a, b with
  | [], [] => true
  | x :: a', y :: b' => (x =? y)%N && str_eqb a' b'
  | _, _ => false
  end.

(** [word in words] for a list of [str]. *)
Definition list_contains (words : list str) (word : str) : bool :=
  existsb (str_eqb word) words.

(** [re.sub('[^a-zA-Z]', ' ', text)]: each character outside the class
    is one match, replaced by one space. *)
Definition re_sub_non_letters (text : str) : str :=
  map (fun c => if is_ascii_letter c then c else space) text.

Definition ascii_lower (c : char) : char :=
  if is_upper_ascii c then (c + 32)%N else c.

Section Lower.
(** The Unicode case tables of the interpreter (with their
    context-sensitive rules), used outside ASCII. *)
Variable unicode_lower : str -> str.

(** [text.lower()]: an all-ASCII string is mapped character by
    character, any other goes through the Unicode tables. *)
Definition str_lower (text : str) : str :=
  if forallb is_ascii text then map ascii_lower text
  else unicode_lower text.
End Lower.

(** [text.split()]: one pass that cuts at every run of white space and
    yields no empty word; [cur] is the word being read. *)
Fixpoint split_from (cur : str) (text : str) : list str :=
  match text with
  | [] => match cur with [] => [] | _ :: _ => [cur] end
  | c :: rest =>
      if isspace c then
        match cur with
        | [] => split_from [] rest
        | _ :: _ => cur :: split_from [] rest
        end
      else split_from (cur ++ [c]) rest
  end.

Definition str_split (text : str) : list str := split_from [] text.

(** [sep.join(words)]. *)
Fixpoint str_join (sep : str) (words : list str) : str :=
  match words with
  | [] => []
  | [w] => w
  | w :: ws => w ++ sep ++ str_join sep ws
  end.

(** [text.strip()]: white space removed at both ends. *)
Fixpoint lstrip (text : str) : str :=
  match text with
  | [] => []
  | c :: rest => if isspace c then lstrip rest else text
  end.

Definition str_strip (text : str) : str :=
  rev (lstrip (rev (lstrip text))).

(** Truth value of a [str]: non-empty. *)
Definition str_truthy (text : str) : bool :=
  match text with [] => false | _ :: _ => true end.

(** [sub in text]. *)
Fixpoint starts_with (sub text : str) : bool :=
  match sub, text with
  | [], _ => true
  | x :: sub', y :: text' => (x =? y)%N && starts_with sub' text'
  | _ :: _, [] => false
  end.

Fixpoint str_contains (text sub : str) : bool :=
  starts_with sub text
  || match text with
     | [] => false
     | _ :: text' => str_contains text' sub
     end.

(** [str(n)] for a length. *)
Definition str_of_nat (n : nat) : str :=
  lit (NilEmpty.string_of_uint (Nat.to_uint n)).

Definition nl : str := [10%N].
Definition dq : str := [34%N].

End PyStr.

Import PyStr.


(* ================================================================== *)
(** ** Outcomes of calls *)

(** What a call raises, with its class and [str(e)]: an instance of
    [Exception], or one of the exceptions that are not ([SystemExit],
    [KeyboardInterrupt], [GeneratorExit]), which [except Exception] lets
    through. *)
Inductive exn : Type :=
| Exception (class : string) (message : str)
| BaseException (class : string) (message : str).

Definition exn_class (e : exn) : string :=
  match e with Exception c _ | BaseException c _ => c end.

Definition exn_str (e : exn) : str :=
  match e with Exception _ m | BaseException _ m => m end.

(** [isinstance(e, Exception)]. *)
Definition is_Exception (e : exn) : bool :=
  match e with Exception _ _ => true | BaseException _ _ => false end.

Inductive result (A : Type) : Type :=
| Ok (a : A)
| Raise (e : exn).

Arguments Ok {A} a.
Arguments Raise {A} e.

(** A value that may be [None]. *)
Definition pyopt (A : Type) : Type := option A.

Definition is_None {A : Type} (x : pyopt A) : bool :=
  match x with None => true | Some _ => false end.

(** What attribute access on [None] raises. *)
Definition AttributeError_None (attr : string) : exn :=
  Exception "AttributeError"
    (lit "'NoneType' object has no attribute '" ++ lit attr ++ lit "'").

Definition IndexError_empty : exn :=
  Exception "IndexError"
    (lit "index 0 is out of bounds for axis 0 with size 0").

Definition KeyError (key : string) : exn :=
  Exception "KeyError" (lit "'" ++ lit key ++ lit "'").

(* ================================================================== *)
(** ** The libraries behind the script *)

(** The unpickled objects are opaque: a model and a vectorizer are states
    of their classes, and a method call yields its outcome together with
    the state the receiver is left in. *)
Class Runtime : Type := {
  unicode_lower : str -> str;
  matrix : Type;
  Model : Type;
  Vectorizer : Type;
  Scraper : Type;
  (** [model.predict(X)]: the array of predicted labels. *)
  predict : Model -> matrix -> result (list Z) * Model;
  (** [vectorizer.transform(docs)]. *)
  transform : Vectorizer -> list str -> result matrix * Vectorizer
}.

(** A tweet of the response, with its ['text'] entry when it has one. *)
Record tweet := { tw_text : option str }.

(** The dict [get_tweets] returns: its ['tweets'] entry when the key is
    present, and its other keys. *)
Record tweets_data := {
  td_tweets : option (list tweet);
  td_other_keys : list str
}.

Definition dict_truthy (d : tweets_data) : bool :=
  match td_tweets d, td_other_keys d with
  | None, [] => false
  | _, _ => true
  end.

(** The test [r and 'tweets' in r] on a response, giving [r['tweets']]
    when it holds. *)
Definition tweets_entry (r : pyopt tweets_data) : option (list tweet) :=
  match r with
  | None => None
  | Some d => if dict_truthy d then td_tweets d else None
  end.

(** The functions of the script that are wrapped in a cache. *)
Inductive fn : Type :=
| F_load_stopwords
| F_load_model_and_vectorizer
| F_initialize_scraper.

(** What a run of the script does that can be observed, in order. *)
Inductive event : Type :=
| Call (f : fn)
| Return (f : fn)
| Call_predict_sentiment (text : str) (model_is_None vectorizer_is_None : bool)
| Call_Nitter (instance : pyopt str) (skip_instance_check : bool)
| Call_get_tweets (terms : str) (number max_retries : Z)
| Open (path : str)
| St_write (label : str) (files : list str)
| St_title (body : str)
| St_markdown (body : str) (unsafe_allow_html : bool)
| St_tabs (labels : list str)
| St_text_area (label : str)
| St_text_input (label : str)
| St_button (label : str)
| St_link_button (label url : str)
| St_spinner (text : str)
| St_error (body : str)
| St_warning (body : str)
| St_success (body : str)
| St_info (body : str).

(** A message that a cached function displayed when it ran. *)
Inductive element : Type :=
| El_error (body : str)
| El_warning (body : str)
| El_success (body : str).

Definition event_of_element (el : element) : event :=
  match el with
  | El_error b => St_error b
  | El_warning b => St_warning b
  | El_success b => St_success b
  end.

(** A literal in triple quotes: a newline, the lines at their
    indentation, and the indentation of the closing quotes. *)
Definition block (indent : nat) (lines : list str) : str :=
  nl ++ concat (map (fun l => l ++ nl) lines) ++ repeat space indent.

Definition indented (indent : nat) (l : string) : str :=
  repeat space indent ++ lit l.

(* ================================================================== *)
(** ** The script *)

Section Script.
Context `{RT : Runtime}.

(** The objects [main] holds once loaded: what its variables [model],
    [vectorizer] and [stop_words] refer to ([None] and the empty list
    stand for a variable not bound yet). *)
Record objects : Type := Objects {
  model_obj : pyopt Model;
  vectorizer_obj : pyopt Vectorizer;
  stop_words_obj : list str
}.

Definition unbound : objects := Objects None None [].

(** The outcomes of everything outside the script in one run: the file
    system, the downloads, the scraping service, the caches of the
    framework (a value with the messages recorded when it was computed)
    and what the user entered. *)
Record env : Type := {
  os_listdir : result (list str);
  nltk_download : result bool;
  stopwords_words : result (list str);
  open_model : result unit;
  pickle_load_model : result (pyopt Model);
  open_vectorizer : result unit;
  pickle_load_vectorizer : result (pyopt Vectorizer);
  Nitter : pyopt str -> bool -> result Scraper;
  get_tweets : Scraper -> str -> Z -> Z -> result (pyopt tweets_data);
  cached_stopwords : option (list str * list element);
  cached_model_and_vectorizer :
    option ((pyopt Model * pyopt Vectorizer) * list element);
  cached_scraper : option (pyopt Scraper * list element);
  text_area : str;
  button_analyze : bool;
  text_input : str;
  button_fetch : bool
}.

(** *** Lines 67-72 *)

(** Line 72, on the cleaned text. *)
Definition vectorize_and_classify (text : str) (model : pyopt Model)
    (vectorizer : pyopt Vectorizer) (stop_words : list str)
  : result str * objects :=
  match model with
  | None => (Raise (AttributeError_None "predict"),
             Objects model vectorizer stop_words)
  | Some m =>
      match vectorizer with
      | None => (Raise (AttributeError_None "transform"),
                 Objects model vectorizer stop_words)
      | Some v =>
          let (X, v') := transform v [text] in
          match X with
          | Raise e => (Raise e, Objects (Some m) (Some v') stop_words)
          | Ok X =>
              let (labels, m') := predict m X in
              let after := Objects (Some m') (Some v') stop_words in
              match labels with
              | Raise e => (Raise e, after)
              | Ok [] => (Raise IndexError_empty, after)
              | Ok (label :: _) =>
                  (Ok (if (label =? 0)%Z then lit "Negative"
                       else lit "Positive"), after)
              end
          end
      end
  end.

Definition predict_sentiment (text : str) (model : pyopt Model)
    (vectorizer : pyopt Vectorizer) (stop_words : list str)
  : result str * objects :=
  let text := re_sub_non_letters text in
  let text := str_split (str_lower unicode_lower text) in
  let text := filter (fun word => negb (list_contains stop_words word)) text in
  let text := str_join (lit " ") text in
  vectorize_and_classify text model vectorizer stop_words.

(** Lines 68-71 on their own: the text that line 72 receives. *)
Definition cleaned_text (stop_words : list str) (text : str) : str :=
  let text := re_sub_non_letters text in
  let text := str_split (str_lower unicode_lower text) in
  let text := filter (fun word => negb (list_contains stop_words word)) text in
  str_join (lit " ") text.

(** *** Lines 74-81 *)

Definition create_card (tweet_text sentiment : str) : str :=
  let color := if str_eqb sentiment (lit "Positive") then lit "#4CAF50"
               else lit "#F44336" in
  nl
  ++ lit "    <div style=" ++ dq ++ lit "background-color: " ++ color
  ++ lit "; padding: 12px; border-radius: 8px; margin: 10px 0; box-shadow: 0 2px 4px rgba(0,0,0,0.1)"
  ++ dq ++ lit ">" ++ nl
  ++ lit "        <h5 style=" ++ dq ++ lit "color: white; margin-top: 0;"
  ++ dq ++ lit ">" ++ sentiment ++ lit " Sentiment</h5>" ++ nl
  ++ lit "        <p style=" ++ dq ++ lit "color: white; margin-bottom: 0;"
  ++ dq ++ lit ">" ++ tweet_text ++ lit "</p>" ++ nl
  ++ lit "    </div>" ++ nl
  ++ lit "    ".

(** *** Running statements: objects, log and exceptions *)

Record outcome (A : Type) : Type := Outcome {
  res : result A;
  objs : objects;
  log : list event
}.

Definition M (A : Type) : Type := objects -> outcome A.

Definition ret {A : Type} (a : A) : M A :=
  fun o => Outcome (Ok a) o [].

Definition bind {A B : Type} (m : M A) (f : A -> M B) : M B :=
  fun o =>
    match m o with
    | Outcome (Ok a) o1 l1 =>
        match f a o1 with
        | Outcome r o2 l2 => Outcome r o2 (l1 ++ l2)
        end
    | Outcome (Raise e) o1 l1 => Outcome (Raise e) o1 l1
    end.

Definition emit (e : event) : M unit :=
  fun o => Outcome (Ok tt) o [e].

(** The outcome of a call into a library. *)
Definition lift {A : Type} (r : result A) : M A :=
  fun o => Outcome r o [].

(** [try: body except Exception as e: handler]: the handler runs for an
    instance of [Exception]; any other exception goes on to the caller. *)
Definition try_except {A : Type} (body : M A) (handler : exn -> M A) : M A :=
  fun o =>
    match body o with
    | Outcome (Ok a) o1 l1 => Outcome (Ok a) o1 l1
    | Outcome (Raise e) o1 l1 =>
        if is_Exception e then
          match handler e o1 with
          | Outcome r o2 l2 => Outcome r o2 (l1 ++ l2)
          end
        else Outcome (Raise e) o1 l1
    end.

Fixpoint for_each {A : Type} (xs : list A) (body : A -> M unit) : M unit :=
  match xs with
  | [] => ret tt
  | x :: xs' => bind (body x) (fun _ => for_each xs' body)
  end.

(** [@st.cache_resource]: on a hit the stored value is returned without
    running the body, and the messages the body displayed when it ran
    are displayed again. *)
Definition replay (elements : list element) : M unit :=
  for_each elements (fun el => emit (event_of_element el)).

Definition cache_resource {A : Type} (f : fn)
    (cached : option (A * list element)) (body : M A) : M A :=
  bind (emit (Call f)) (fun _ =>
  bind (match cached with
        | Some (v, elements) => bind (replay elements) (fun _ => ret v)
        | None => body
        end) (fun v =>
  bind (emit (Return f)) (fun _ =>
  ret v))).

End Script.

Arguments env {RT}.
Arguments objects {RT}.
Arguments outcome {RT} A.
Arguments M {RT} A.

Declare Scope script_scope.
Delimit Scope script_scope with script.
Notation "x <- m ;; k" := (bind m (fun x => k))
  (at level 61, m at next level, right associativity) : script_scope.
Notation "m ;; k" := (bind m (fun _ => k))
  (at level 61, right associativity) : script_scope.
Open Scope script_scope.

Section Functions.
Context `{RT : Runtime}.
Variable E : env.

(** *** Lines 10-13 *)

Definition load_stopwords : M (list str) :=
  _ <- lift (nltk_download E);;
  lift (stopwords_words E).

(** *** Lines 16-26 *)

Definition model_path : str := lit "/mount/src/tweet_analyzer/model.pkl".
Definition vectorizer_path : str :=
  lit "/mount/src/tweet_analyzer/vectorizer.pkl".

Definition load_model_and_vectorizer
  : M (pyopt Model * pyopt Vectorizer) :=
  try_except
    (emit (Open model_path);;
     _ <- lift (open_model E);;
     model <- lift (pickle_load_model E);;
     emit (Open vectorizer_path);;
     _ <- lift (open_vectorizer E);;
     vectorizer <- lift (pickle_load_vectorizer E);;
     ret (model, vectorizer))
    (fun e =>
     emit (St_error (lit "Failed to load model files: " ++ exn_str e));;
     ret (None, None)).

(** *** Lines 28-65 *)

Definition working_instances : list str :=
  [ lit "https://nitter.net";
    lit "https://nitter.it";
    lit "https://nitter.domain.glass";
    lit "https://nitter.poast.org" ].

Definition call_Nitter (instance : pyopt str) (skip_instance_check : bool)
  : M Scraper :=
  emit (Call_Nitter instance skip_instance_check);;
  lift (Nitter E instance skip_instance_check).

Definition call_get_tweets (scraper : Scraper) (terms : str)
    (number max_retries : Z) : M (pyopt tweets_data) :=
  emit (Call_get_tweets terms number max_retries);;
  lift (get_tweets E scraper terms number max_retries).

(** The [for] loop of lines 40-53; [Some scraper] is its [return], [None]
    its running to the end. *)
Fixpoint try_instances (instances : list str) : M (option Scraper) :=
  match instances with
  | [] => ret None
  | instance :: rest =>
      found <- try_except
                 (scraper <- call_Nitter (Some instance) false;;
                  test <- call_get_tweets scraper (lit "twitter") 1 1;;
                  match tweets_entry test with
                  | Some _ =>
                      emit (St_success
                              (lit "Connected to Nitter instance: "
                               ++ instance));;
                      ret (Some scraper)
                  | None => ret None
                  end)
                 (fun _ => ret None);;
      match found with
      | Some scraper => ret (Some scraper)
      | None => try_instances rest
      end
  end.

Definition initialize_scraper : M (pyopt Scraper) :=
  try_except
    (found <- try_instances working_instances;;
     match found with
     | Some scraper => ret (Some scraper)
     | None =>
         scraper <- call_Nitter None true;;
         emit (St_warning
                 (lit "Using fallback mode with instance check disabled"));;
         ret (Some scraper)
     end)
    (fun e =>
     emit (St_error (lit "Scraper initialization failed: " ++ exn_str e));;
     ret None).

(** *** Lines 83-159 *)

Definition call_predict_sentiment (text : str) : M str :=
  fun o =>
    let (r, o') := predict_sentiment text (model_obj o) (vectorizer_obj o)
                     (stop_words_obj o) in
    Outcome r o'
      [Call_predict_sentiment text (is_None (model_obj o))
         (is_None (vectorizer_obj o))].

Definition assign_stop_words (stop_words : list str) : M unit :=
  fun o => Outcome (Ok tt)
             (Objects (model_obj o) (vectorizer_obj o) stop_words) [].

Definition assign_model_vectorizer
    (mv : pyopt Model * pyopt Vectorizer) : M unit :=
  fun o => Outcome (Ok tt) (Objects (fst mv) (snd mv) (stop_words_obj o)) [].

(** Lines 84-93: the page header and the three loads. *)
Definition main_setup : M (pyopt Scraper) :=
  files <- lift (os_listdir E);;
  emit (St_write (lit "Files in directory:") files);;
  emit (St_title (lit "Twitter Sentiment Analysis " ++ [128038%N]));;
  emit (St_markdown
          (lit "Analyze text or recent tweets from public accounts") false);;
  stop_words <- cache_resource F_load_stopwords (cached_stopwords E)
                  load_stopwords;;
  assign_stop_words stop_words;;
  mv <- cache_resource F_load_model_and_vectorizer
          (cached_model_and_vectorizer E) load_model_and_vectorizer;;
  assign_model_vectorizer mv;;
  cache_resource F_initialize_scraper (cached_scraper E) initialize_scraper.

(** Lines 97-104: the block of the first tab. *)
Definition tab1 : M unit :=
  emit (St_text_area (lit "Enter text to analyze:"));;
  emit (St_button (lit "Analyze Sentiment"));;
  if button_analyze E then
    if str_truthy (str_strip (text_area E)) then
      sentiment <- call_predict_sentiment (text_area E);;
      emit (St_markdown (create_card (text_area E) sentiment) true)
    else emit (St_warning (lit "Please enter some text to analyze"))
  else ret tt.

Definition unavailable_message : str :=
  block 12
    [ indented 12 "Twitter scraping service is currently unavailable. ";
      indented 12 "Possible reasons:";
      indented 12 "- All Nitter instances are down";
      indented 12 "- Twitter has blocked Nitter access";
      indented 12 "- Network restrictions";
      indented 12 "";
      indented 12 "Please try:";
      indented 12 "1. Using text analysis instead";
      indented 12 "2. Checking Nitter status";
      indented 12 "3. Coming back later" ].

Definition troubleshooting_tips : str :=
  block 24
    [ indented 24 "Troubleshooting tips:";
      indented 24 "1. Try a different username";
      indented 24 "2. Wait a few minutes and retry";
      indented 24 "3. The account might be suspended";
      indented 24 "4. Nitter instances may be overloaded" ].

(** Lines 143-145: the body of the loop over the tweets. *)
Definition analyze_tweet (tweet : tweet) : M unit :=
  tweet_text <- lift (match tw_text tweet with
                      | Some t => Ok t
                      | None => Raise (KeyError "text")
                      end);;
  sentiment <- call_predict_sentiment tweet_text;;
  emit (St_markdown (create_card tweet_text sentiment) true).

(** Lines 130-159: the fetch and its handler. *)
Definition fetch_and_analyze (scraper : Scraper) (username : str) : M unit :=
  try_except
    (emit (St_spinner (lit "Fetching tweets from @" ++ username
                       ++ lit "..."));;
     tweets_data <- call_get_tweets scraper username 5 3;;
     match tweets_entry tweets_data with
     | Some tweets =>
         match tweets with
         | _ :: _ =>
             emit (St_success (lit "Found " ++ str_of_nat (length tweets)
                               ++ lit " recent tweets"));;
             for_each tweets analyze_tweet
         | [] =>
             emit (St_warning
                     (lit "No public tweets found. Account may be private or have no tweets."))
         end
     | None =>
         emit (St_error (lit "Received unexpected response from Nitter"))
     end)
    (fun e =>
     emit (St_error (lit "Error fetching tweets: " ++ exn_str e));;
     emit (St_info troubleshooting_tips)).

(** Lines 106-159: the block of the second tab. *)
Definition tab2 (scraper : pyopt Scraper) : M unit :=
  match scraper with
  | None =>
      emit (St_error unavailable_message);;
      emit (St_link_button (lit "Check Nitter Status")
              (lit "https://github.com/zedeus/nitter/wiki/Instances"))
  | Some scraper =>
      emit (St_text_input (lit "Enter Twitter username:"));;
      emit (St_button (lit "Fetch & Analyze Tweets"));;
      if button_fetch E then
        if negb (str_truthy (str_strip (text_input E))) then
          emit (St_warning (lit "Please enter a username"))
        else fetch_and_analyze scraper (text_input E)
      else ret tt
  end.

Definition main : M unit :=
  scraper <- main_setup;;
  emit (St_tabs [ [128292%N] ++ lit " Analyze Text";
                  [128038%N] ++ lit " Analyze Tweets" ]);;
  tab1;;
  tab2 scraper.

End Functions.

(* ================================================================== *)
(** ** The cleaning pipeline as the specification words it *)

Module Spec.

(** Every character that is not an ASCII letter becomes a space. *)
Definition replace_non_letters (text : str) : str :=
  map (fun c => if is_ascii_letter c then c else space) text.

(** Lowercasing, letter by letter. *)
Definition lowercase (text : str) : str := map ascii_lower text.

(** Whether a word ends here: at the end of the text or before white
    space. *)
Definition at_word_end (rest : str) : bool :=
  match rest with
  | [] => true
  | d :: _ => isspace d
  end.

(** The words of a text: its maximal runs without white space. *)
Fixpoint split_whitespace (text : str) : list str :=
  match text with
  | [] => []
  | c :: rest =>
      if isspace c then split_whitespace rest
      else if at_word_end rest then [c] :: split_whitespace rest
      else match split_whitespace rest with
           | w :: ws => (c :: w) :: ws
           | [] => [[c]]
           end
  end.

(** The words that are not in the stopword list. *)
Definition remove_stopwords (stop_words words : list str) : list str :=
  filter (fun w => if in_dec (list_eq_dec N.eq_dec) w stop_words
                   then false else true) words.

(** The words with one space between neighbours. *)
Definition join_single_spaces (words : list str) : str :=
  match words with
  | [] => []
  | w :: ws => w ++ concat (map (fun x => space :: x) ws)
  end.

Definition clean (stop_words : list str) (text : str) : str :=
  join_single_spaces
    (remove_stopwords stop_words
       (split_whitespace (lowercase (replace_non_letters text)))).

End Spec.

(* ================================================================== *)
(** ** Reading a log *)

Definition displayed_errors (l : list event) : list str :=
  flat_map (fun e => match e with St_error b => [b] | _ => [] end) l.

(** The cards put on the page. *)
Definition rendered (l : list event) : list str :=
  flat_map (fun e => match e with St_markdown b true => [b] | _ => [] end) l.

Definition predicted_texts (l : list event) : list str :=
  flat_map (fun e => match e with
                     | Call_predict_sentiment t _ _ => [t]
                     | _ => []
                     end) l.

(** The scraper constructions, with the endpoint each one names. *)
Definition nitter_calls (l : list event) : list (pyopt str * bool) :=
  flat_map (fun e => match e with Call_Nitter i s => [(i, s)] | _ => [] end) l.

Definition get_tweets_calls (l : list event) : list (str * Z * Z) :=
  flat_map (fun e => match e with
                     | Call_get_tweets t n r => [(t, n, r)]
                     | _ => []
                     end) l.

(** Both loaders have returned before every call of [predict_sentiment]. *)
Fixpoint load_before_use (stopwords_loaded model_loaded : bool)
    (l : list event) : bool :=
  match l with
  | [] => true
  | Return F_load_stopwords :: l' => load_before_use true model_loaded l'
  | Return F_load_model_and_vectorizer :: l' =>
      load_before_use stopwords_loaded true l'
  | Call_predict_sentiment _ _ _ :: l' =>
      stopwords_loaded && model_loaded
      && load_before_use stopwords_loaded model_loaded l'
  | _ :: l' => load_before_use stopwords_loaded model_loaded l'
  end.

(** The colour of a card: what follows the first [background-color: ] up
    to the next semicolon. *)
Fixpoint take_until (stop : char) (text : str) : str :=
  match text with
  | [] => []
  | c :: rest => if (c =? stop)%N then [] else c :: take_until stop rest
  end.

Fixpoint after_first (sub text : str) : option str :=
  if starts_with sub text then Some (skipn (length sub) text)
  else match text with
       | [] => None
       | _ :: rest => after_first sub rest
       end.

Definition background_color (html : str) : option str :=
  match after_first (lit "background-color: ") html with
  | Some rest => Some (take_until 59%N rest)
  | None => None
  end.


(* ================================================================== *)
(** ** Predicates of the statements *)

(** What is left of a text once cleaned: small letters. *)
Definition small_letter (c : char) : Prop := is_lower_ascii c = true.

(** What is left after the substitution: letters and spaces. *)
Definition letter_or_space (c : char) : Prop :=
  is_ascii_letter c = true \/ c = space.

Definition small_or_space (c : char) : Prop :=
  small_letter c \/ c = space.

Definition no_space (c : char) : Prop := isspace c = false.

(** A word as [split] yields them. *)
Definition is_word (w : str) : Prop := w <> [] /\ Forall no_space w.

(** The spaces and words that follow the first word of a join. *)
Definition spaced (words : list str) : str :=
  concat (map (fun x => space :: x) words).

(** The words the pipeline keeps, before they are joined. *)
Definition kept_words (stop_words : list str) (text : str) : list str :=
  Spec.remove_stopwords stop_words
    (Spec.split_whitespace
       (Spec.lowercase (Spec.replace_non_letters text))).

(** The fixed parts of a card, around the colour, the label and the
    text. *)
Definition card_open : str :=
  nl ++ lit "    <div style=" ++ dq ++ lit "background-color: ".

Definition card_style : str :=
  lit "; padding: 12px; border-radius: 8px; margin: 10px 0; box-shadow: 0 2px 4px rgba(0,0,0,0.1)"
  ++ dq ++ lit ">" ++ nl
  ++ lit "        <h5 style=" ++ dq ++ lit "color: white; margin-top: 0;"
  ++ dq ++ lit ">".

Definition card_middle : str :=
  lit " Sentiment</h5>" ++ nl
  ++ lit "        <p style=" ++ dq ++ lit "color: white; margin-bottom: 0;"
  ++ dq ++ lit ">".

Definition card_close : str :=
  lit "</p>" ++ nl ++ lit "    </div>" ++ nl ++ lit "    ".

Definition card_colour (sentiment : str) : str :=
  if str_eqb sentiment (lit "Positive") then lit "#4CAF50"
  else lit "#F44336".

(** A statement that leaves the objects as it found them. *)
Definition preserves `{RT : Runtime} {A : Type} (m : M A) : Prop :=
  forall o, objs (m o) = o.

(** A statement all of whose events satisfy [P]. *)
Definition logs_only `{RT : Runtime} {A : Type} (P : event -> Prop)
    (m : M A) : Prop :=
  forall o, Forall P (log (m o)).

Definition returned (f : fn) (l : list event) : bool :=
  existsb (fun e => match e, f with
                    | Return F_load_stopwords, F_load_stopwords => true
                    | Return F_load_model_and_vectorizer,
                      F_load_model_and_vectorizer => true
                    | Return F_initialize_scraper, F_initialize_scraper =>
                        true
                    | _, _ => false
                    end) l.

(** A statement whose normal end comes after a return of [f]. *)
Definition returns_after `{RT : Runtime} {A : Type} (f : fn) (m : M A)
  : Prop :=
  forall o a, res (m o) = Ok a -> returned f (log (m o)) = true.

Definition not_predict (e : event) : Prop :=
  match e with Call_predict_sentiment _ _ _ => False | _ => True end.

Definition not_card (e : event) : Prop :=
  match e with St_markdown _ true => False | _ => True end.

Definition not_get_tweets (e : event) : Prop :=
  match e with Call_get_tweets _ _ _ => False | _ => True end.

(** Nothing of what the later blocks of [main] do. *)
Definition setup_event (e : event) : Prop := not_predict e /\ not_card e.

(** The card of a text and the sentiment found for it. *)
Definition card_of_pair (pair : str * str) : str :=
  create_card (fst pair) (snd pair).

Section Analysis.
Context `{RT : Runtime}.

(** The tweets of a list classified one after the other, each with the
    objects as the one before left them: the texts with the sentiments
    that [predict_sentiment] returned, and the objects at the end. *)
Inductive analyzed
  : objects -> list tweet -> list (str * str) -> objects -> Prop :=
| analyzed_nil (o : objects) : analyzed o [] [] o
| analyzed_cons (o o1 o2 : objects) (first : tweet) (text s : str)
    (others : list tweet) (pairs : list (str * str)) :
    tw_text first = Some text ->
    predict_sentiment text (model_obj o) (vectorizer_obj o)
      (stop_words_obj o) = (Ok s, o1) ->
    analyzed o1 others pairs o2 ->
    analyzed o (first :: others) ((text, s) :: pairs) o2.

(** A tweet that cannot be rendered: it has no ['text'], or its
    classification raises. *)
Definition fails (o : objects) (tw : tweet) : Prop :=
  tw_text tw = None
  \/ exists text e o',
       tw_text tw = Some text
       /\ predict_sentiment text (model_obj o) (vectorizer_obj o)
            (stop_words_obj o) = (Raise e, o').

(** The text that is handed to [predict_sentiment] for a tweet. *)
Definition attempted_text (tw : tweet) : list str :=
  match tw_text tw with Some text => [text] | None => [] end.

End Analysis.

(** What the specification says of the tweets of a response: every one
    is classified and rendered. *)
Definition all_classified_and_rendered (tweets : list tweet)
    (l : list event) : Prop :=
  map Some (predicted_texts l) = map tw_text tweets
  /\ length (rendered l) = length tweets.

(** What the specification says of the loader: whatever is raised while
    the files are read, the loader returns a pair. *)
Definition catches_every_exception `{RT : Runtime} (E : env) : Prop :=
  forall o, exists pair, res (load_model_and_vectorizer E o) = Ok pair.

(** The scraper is set up in one attempt at one endpoint: no second
    endpoint and no second attempt follows a first. *)
Definition single_attempt (l : list event) : Prop :=
  length (nitter_calls l) <= 1.

(** The probe of an instance. *)
Definition probe : str * Z * Z := (lit "twitter", 1%Z, 1%Z).

Definition with_check (instance : str) : pyopt str * bool :=
  (Some instance, false).

(* ================================================================== *)
(** ** Further predicates, for what the script does beyond the claims *)

(** The other case of a letter. *)
Definition ascii_upper (c : char) : char :=
  if is_lower_ascii c then (c - 32)%N else c.

(** A word that a cleaned text can contain: not empty, small letters
    only. *)
Definition cleanable_word (w : str) : bool :=
  match w with
  | [] => false
  | _ :: _ => forallb is_lower_ascii w
  end.

(** Two texts with the same letters at the same places; anywhere else
    the two have characters that are not ASCII letters. *)
Definition same_letters (a b : str) : Prop :=
  Forall2 (fun x y => if is_ascii_letter x then x = y
                      else is_ascii_letter y = false) a b.

(** The files opened, in order. *)
Definition opened (l : list event) : list str :=
  flat_map (fun e => match e with Open p => [p] | _ => [] end) l.

Definition displayed_warnings (l : list event) : list str :=
  flat_map (fun e => match e with St_warning b => [b] | _ => [] end) l.

Definition displayed_successes (l : list event) : list str :=
  flat_map (fun e => match e with St_success b => [b] | _ => [] end) l.

(** An event that is not a card, or is a card with one of the two
    labels. *)
Definition labelled (e : event) : Prop :=
  match e with
  | St_markdown body true =>
      exists text s, body = create_card text s
                     /\ (s = lit "Positive" \/ s = lit "Negative")
  | _ => True
  end.

Definition not_error_or_warning (e : event) : Prop :=
  match e with
  | St_error _ | St_warning _ => False
  | _ => True
  end.

Section Attempts.
Context `{RT : Runtime}.
Variable E : env.

(** How the attempt at one instance ends (lines 41-53): with a scraper
    whose probe came back with a ['tweets'] entry; with nothing, when the
    construction or the probe raised an [Exception] or the response has
    no such entry; or with an exception that [except Exception] lets
    through. *)
Inductive attempt_end : Type :=
| Answers (scraper : Scraper)
| No_answer
| Leaves (e : exn).

Definition try_instance (instance : str) : attempt_end :=
  match Nitter E (Some instance) false with
  | Ok scraper =>
      match get_tweets E scraper (lit "twitter") 1 1 with
      | Ok test =>
          match tweets_entry test with
          | Some _ => Answers scraper
          | None => No_answer
          end
      | Raise e => if is_Exception e then No_answer else Leaves e
      end
  | Raise e => if is_Exception e then No_answer else Leaves e
  end.

(** An instance whose scraper could be constructed, and so was probed. *)
Definition constructed (instance : str) : bool :=
  match Nitter E (Some instance) false with
  | Ok _ => true
  | Raise _ => false
  end.

Definition no_answer (instance : str) : Prop :=
  try_instance instance = No_answer.

End Attempts.

(* ================================================================== *)
(** ** A small runtime and some runs, to evaluate the script on *)

Module Example.

(** A vectorizer that hands the documents through and a model that
    answers 1 for a document containing [good], 0 for any other. *)
Definition runtime : Runtime := {|
  unicode_lower := fun text => text;
  matrix := list str;
  Model := unit;
  Vectorizer := unit;
  Scraper := pyopt str;
  predict := fun m X =>
    (Ok (map (fun doc => if str_contains doc (lit "good") then 1%Z else 0%Z)
           X), m);
  transform := fun v docs => (Ok docs, v)
|}.

Definition a_tweet (text : string) : tweet := {| tw_text := Some (lit text) |}.

Definition two_tweets : list tweet :=
  [ a_tweet "What a GOOD day!"; a_tweet "The bus is late again" ].

Definition response : pyopt tweets_data :=
  Some {| td_tweets := Some two_tweets; td_other_keys := [lit "threads"] |}.

Definition file_not_found : exn :=
  Exception "FileNotFoundError"
    (lit "[Errno 2] No such file or directory: '/mount/src/tweet_analyzer/model.pkl'").

Definition connection_error : exn :=
  Exception "ConnectionError" (lit "instance unreachable").

(** A run in which the user pressed both buttons; [model_file] is the
    outcome of opening the model file and [service] that of a call to
    the scraping service through a given endpoint. *)
Definition a_run (model_file : result unit)
    (service : pyopt str -> result (pyopt tweets_data))
  : @env runtime := {|
  os_listdir := Ok [lit "app.py"; lit "model.pkl"; lit "vectorizer.pkl"];
  nltk_download := Ok true;
  stopwords_words := Ok [lit "the"; lit "is"; lit "a"; lit "what"];
  open_model := model_file;
  pickle_load_model := Ok (Some (tt : @Model runtime));
  open_vectorizer := Ok tt;
  pickle_load_vectorizer := Ok (Some (tt : @Vectorizer runtime));
  Nitter := fun instance _ => Ok (instance : @Scraper runtime);
  get_tweets := fun scraper _ _ _ => service scraper;
  cached_stopwords := None;
  cached_model_and_vectorizer := None;
  cached_scraper := None;
  text_area := lit "This is GOOD, isn't it?";
  button_analyze := true;
  text_input := lit "nasa";
  button_fetch := true
|}.

(** Everything works. *)
Definition run_ok : @env runtime := a_run (Ok tt) (fun _ => Ok response).

(** The model file is missing. *)
Definition run_no_model : @env runtime :=
  a_run (Raise file_not_found) (fun _ => Ok response).

(** The first instance of the list is down, the others answer. *)
Definition run_first_down : @env runtime :=
  a_run (Ok tt)
    (fun scraper =>
       match scraper with
       | Some instance =>
           if str_eqb instance (lit "https://nitter.net")
           then Raise connection_error else Ok response
       | None => Ok response
       end).

(** The objects of a run whose loads succeeded. *)
Definition loaded_objects : @objects runtime :=
  Objects (Some (tt : @Model runtime)) (Some (tt : @Vectorizer runtime))
    [lit "the"; lit "is"; lit "a"; lit "what"].

Definition nitter_net : @Scraper runtime := Some (lit "https://nitter.net").

Definition tweet_texts : list str :=
  [ lit "What a GOOD day!"; lit "The bus is late again" ].

(** What the run without the model file has logged when its loading step
    ends. *)
Definition no_model_setup_log : list event :=
  Eval vm_compute in log (@main_setup runtime run_no_model unbound).

End Example.

(* ================================================================== *)
(** ** More runs *)

Module MoreExamples.

Definition lookup_error : exn :=
  Exception "LookupError" (lit "Resource stopwords not found.").

(** The run in which everything works, but for the stopword corpus. *)
Definition run_no_stopwords : @env Example.runtime := {|
  os_listdir := os_listdir Example.run_ok;
  nltk_download := Ok false;
  stopwords_words := Raise lookup_error;
  open_model := open_model Example.run_ok;
  pickle_load_model := pickle_load_model Example.run_ok;
  open_vectorizer := open_vectorizer Example.run_ok;
  pickle_load_vectorizer := pickle_load_vectorizer Example.run_ok;
  Nitter := Nitter Example.run_ok;
  get_tweets := get_tweets Example.run_ok;
  cached_stopwords := None;
  cached_model_and_vectorizer := None;
  cached_scraper := None;
  text_area := text_area Example.run_ok;
  button_analyze := true;
  text_input := text_input Example.run_ok;
  button_fetch := true
|}.

Definition system_exit : exn := BaseException "SystemExit" (lit "1").

(** The run in which everything works, but for the model file, whose
    unpickling calls [sys.exit]. *)
Definition run_pickle_exits : @env Example.runtime := {|
  os_listdir := os_listdir Example.run_ok;
  nltk_download := nltk_download Example.run_ok;
  stopwords_words := stopwords_words Example.run_ok;
  open_model := open_model Example.run_ok;
  pickle_load_model := Raise system_exit;
  open_vectorizer := open_vectorizer Example.run_ok;
  pickle_load_vectorizer := pickle_load_vectorizer Example.run_ok;
  Nitter := Nitter Example.run_ok;
  get_tweets := get_tweets Example.run_ok;
  cached_stopwords := None;
  cached_model_and_vectorizer := None;
  cached_scraper := None;
  text_area := text_area Example.run_ok;
  button_analyze := true;
  text_input := text_input Example.run_ok;
  button_fetch := true
|}.

(** The run whose model file is missing, with the button of the second
    tab pressed and not the one of the first. *)
Definition run_fetch_without_model : @env Example.runtime := {|
  os_listdir := os_listdir Example.run_no_model;
  nltk_download := nltk_download Example.run_no_model;
  stopwords_words := stopwords_words Example.run_no_model;
  open_model := open_model Example.run_no_model;
  pickle_load_model := pickle_load_model Example.run_no_model;
  open_vectorizer := open_vectorizer Example.run_no_model;
  pickle_load_vectorizer := pickle_load_vectorizer Example.run_no_model;
  Nitter := Nitter Example.run_no_model;
  get_tweets := get_tweets Example.run_no_model;
  cached_stopwords := None;
  cached_model_and_vectorizer := None;
  cached_scraper := None;
  text_area := text_area Example.run_no_model;
  button_analyze := false;
  text_input := text_input Example.run_no_model;
  button_fetch := true
|}.

(** The objects of a run whose model files could not be loaded. *)
Definition objects_without_model : @objects Example.runtime :=
  Objects None None [lit "the"; lit "is"; lit "a"; lit "what"].

(** A text without a letter: digits, punctuation and an emoji. *)
Definition no_letters : str := lit "2024 !!! 100% " ++ [128512%N].

Definition with_marks : str := lit "It's 5pm, ok?".
Definition without_marks : str := lit "It s  pm  ok ".

End MoreExamples.


(* ================================================================== *)
(** ** Characters and words *)

Ltac bool_to_prop H :=
  repeat first
    [ rewrite orb_true_iff in H
    | rewrite andb_true_iff in H
    | rewrite orb_false_iff in H
    | rewrite andb_false_iff in H
    | rewrite N.leb_le in H
    | rewrite N.leb_gt in H
    | rewrite N.ltb_lt in H
    | rewrite N.ltb_ge in H
    | rewrite N.eqb_eq in H
    | rewrite N.eqb_neq in H ].

Lemma small_letter_no_space c : small_letter c -> no_space c.
Proof.
  unfold small_letter, no_space, is_lower_ascii, isspace. intros H.
  destruct (_ || _) eqn:S; [exfalso | reflexivity].
  bool_to_prop H. bool_to_prop S. lia.
Qed.

Lemma small_letter_is_letter c : small_letter c -> is_ascii_letter c = true.
Proof.
  unfold small_letter, is_ascii_letter. intros ->. reflexivity.
Qed.

Lemma small_letter_lower c : small_letter c -> ascii_lower c = c.
Proof.
  unfold small_letter, ascii_lower, is_lower_ascii, is_upper_ascii.
  intros H. destruct (_ && _) eqn:U in |- *; [exfalso | reflexivity].
  bool_to_prop H. bool_to_prop U. lia.
Qed.

Lemma letter_or_space_ascii c : letter_or_space c -> is_ascii c = true.
Proof.
  unfold letter_or_space, is_ascii_letter, is_lower_ascii, is_upper_ascii,
    is_ascii, space.
  intros H. apply N.ltb_lt. bool_to_prop H. lia.
Qed.

Lemma lower_letter_or_space c :
  letter_or_space c -> small_or_space (ascii_lower c).
Proof.
  unfold letter_or_space, small_or_space, small_letter, ascii_lower,
    is_ascii_letter, is_lower_ascii, is_upper_ascii, space.
  intros H.
  destruct ((65 <=? c)%N && (c <=? 90)%N) eqn:U.
  - left. bool_to_prop U. apply andb_true_iff.
    rewrite !N.leb_le. lia.
  - destruct H as [H | H]; [ | right; exact H ].
    left. rewrite orb_false_r in H. exact H.
Qed.

Lemma str_eqb_eq (a b : str) : str_eqb a b = true <-> a = b.
Proof.
  revert b. induction a as [ | x a IH]; intros [ | y b]; simpl;
    try (split; [discriminate | discriminate || reflexivity]);
    try (split; reflexivity || discriminate).
  rewrite andb_true_iff, N.eqb_eq, IH. split.
  - intros [-> ->]. reflexivity.
  - intros [= -> ->]. split; reflexivity.
Qed.

Lemma list_contains_In (words : list str) (w : str) :
  list_contains words w = true <-> In w words.
Proof.
  unfold list_contains. rewrite existsb_exists. split.
  - intros (x & Hin & Heq). apply str_eqb_eq in Heq. subst. exact Hin.
  - intros Hin. exists w. split; [exact Hin | ]. apply str_eqb_eq.
    reflexivity.
Qed.

(** *** The four steps of the source against the specification's *)

Lemma re_sub_letters_or_spaces (text : str) :
  Forall letter_or_space (re_sub_non_letters text).
Proof.
  unfold re_sub_non_letters. induction text as [ | c text IH]; simpl.
  - constructor.
  - constructor; [ | exact IH ].
    unfold letter_or_space.
    destruct (is_ascii_letter c) eqn:L; [left; exact L | right; reflexivity].
Qed.

Lemma str_lower_ascii (ul : str -> str) (text : str) :
  Forall letter_or_space text ->
  str_lower ul text = Spec.lowercase text.
Proof.
  intros H. unfold str_lower, Spec.lowercase.
  replace (forallb is_ascii text) with true; [reflexivity | ].
  symmetry. apply forallb_forall. intros c Hc.
  apply letter_or_space_ascii. rewrite Forall_forall in H. auto.
Qed.

Lemma lowercase_small_or_space (text : str) :
  Forall letter_or_space text ->
  Forall small_or_space (Spec.lowercase text).
Proof.
  unfold Spec.lowercase. induction 1; simpl; constructor; auto.
  apply lower_letter_or_space. assumption.
Qed.

Lemma split_whitespace_starts (text : str) :
  Spec.at_word_end text = false -> Spec.split_whitespace text <> [].
Proof.
  destruct text as [ | c rest]; simpl; [discriminate | ].
  intros ->. destruct (Spec.at_word_end rest); [discriminate | ].
  destruct (Spec.split_whitespace rest); discriminate.
Qed.

Lemma split_from_spec (text cur : str) :
  split_from cur text =
  if Spec.at_word_end text then
    match cur with
    | [] => Spec.split_whitespace text
    | _ :: _ => cur :: Spec.split_whitespace text
    end
  else
    match Spec.split_whitespace text with
    | w :: ws => (cur ++ w) :: ws
    | [] => [cur]
    end.
Proof.
  revert cur. induction text as [ | c rest IH]; intros cur.
  - simpl. destruct cur; reflexivity.
  - simpl. destruct (isspace c) eqn:Sc.
    + rewrite IH. destruct (Spec.at_word_end rest) eqn:W.
      * destruct cur; reflexivity.
      * pose proof (split_whitespace_starts rest W) as Hne.
        destruct (Spec.split_whitespace rest) eqn:R; [contradiction | ].
        destruct cur; reflexivity.
    + rewrite IH. destruct (Spec.at_word_end rest) eqn:W.
      * destruct cur; reflexivity.
      * destruct (Spec.split_whitespace rest) eqn:R.
        -- reflexivity.
        -- rewrite <- app_assoc. reflexivity.
Qed.

Lemma str_split_spec (text : str) :
  str_split text = Spec.split_whitespace text.
Proof.
  unfold str_split. rewrite split_from_spec.
  destruct (Spec.at_word_end text) eqn:W; [reflexivity | ].
  pose proof (split_whitespace_starts text W) as Hne.
  destruct (Spec.split_whitespace text); [contradiction | reflexivity].
Qed.

Lemma filter_stopwords_spec (stop_words words : list str) :
  filter (fun word => negb (list_contains stop_words word)) words
  = Spec.remove_stopwords stop_words words.
Proof.
  unfold Spec.remove_stopwords. apply filter_ext. intros w.
  destruct (in_dec (list_eq_dec N.eq_dec) w stop_words) as [Hin | Hout].
  - apply list_contains_In in Hin. rewrite Hin. reflexivity.
  - destruct (list_contains stop_words w) eqn:C; [ | reflexivity ].
    apply list_contains_In in C. contradiction.
Qed.

Lemma str_join_spec (words : list str) :
  str_join (lit " ") words = Spec.join_single_spaces words.
Proof.
  induction words as [ | w ws IH]; [reflexivity | ].
  destruct ws as [ | w' ws].
  - simpl. rewrite app_nil_r. reflexivity.
  - change (str_join (lit " ") (w :: w' :: ws))
      with (w ++ lit " " ++ str_join (lit " ") (w' :: ws)).
    rewrite IH. reflexivity.
Qed.

(** *** Words of a split, and splitting a join *)

Lemma split_whitespace_words (text : str) :
  Forall is_word (Spec.split_whitespace text).
Proof.
  induction text as [ | c rest IH]; simpl; [constructor | ].
  destruct (isspace c) eqn:Sc; [exact IH | ].
  destruct (Spec.at_word_end rest).
  - constructor; [ | exact IH ].
    split; [discriminate | ]. constructor; [exact Sc | constructor].
  - destruct (Spec.split_whitespace rest) as [ | w ws].
    + constructor; [ | constructor ].
      split; [discriminate | ]. constructor; [exact Sc | constructor].
    + inversion IH as [ | ? ? [_ Hw] Hws]; subst.
      constructor; [ | exact Hws ].
      split; [discriminate | ]. constructor; assumption.
Qed.

Lemma split_whitespace_chars (P : char -> Prop) (text : str) :
  Forall P text -> Forall (Forall P) (Spec.split_whitespace text).
Proof.
  induction 1 as [ | c rest Hc Hrest IH]; simpl; [constructor | ].
  destruct (isspace c); [exact IH | ].
  destruct (Spec.at_word_end rest).
  - constructor; [ | exact IH ]. constructor; [exact Hc | constructor].
  - destruct (Spec.split_whitespace rest) as [ | w ws].
    + constructor; [ | constructor ]. constructor; [exact Hc | constructor].
    + inversion IH; subst. constructor; [ | assumption ].
      constructor; assumption.
Qed.

Lemma split_word_then (w rest : str) :
  is_word w -> Spec.at_word_end rest = true ->
  Spec.split_whitespace (w ++ rest) = w :: Spec.split_whitespace rest.
Proof.
  intros [Hne Hw] Hrest. induction w as [ | c w IH]; [contradiction | ].
  inversion Hw as [ | ? ? Hc Hw']; subst.
  unfold no_space in Hc. simpl. rewrite Hc.
  destruct w as [ | d w].
  - simpl. rewrite Hrest. reflexivity.
  - assert (E : Spec.at_word_end ((d :: w) ++ rest) = false).
    { simpl. inversion Hw'; subst. assumption. }
    rewrite E. rewrite IH; [reflexivity | discriminate | exact Hw'].
Qed.

Lemma spaced_at_word_end (words : list str) :
  Spec.at_word_end (spaced words) = true.
Proof. destruct words; reflexivity. Qed.

Lemma split_spaced (words : list str) :
  Forall is_word words -> Spec.split_whitespace (spaced words) = words.
Proof.
  induction 1 as [ | w ws Hw Hws IH]; [reflexivity | ].
  change (spaced (w :: ws)) with (space :: (w ++ spaced ws)).
  change (Spec.split_whitespace (space :: (w ++ spaced ws)))
    with (Spec.split_whitespace (w ++ spaced ws)).
  rewrite split_word_then; [ | exact Hw | apply spaced_at_word_end ].
  rewrite IH. reflexivity.
Qed.

Lemma split_join (words : list str) :
  Forall is_word words ->
  Spec.split_whitespace (Spec.join_single_spaces words) = words.
Proof.
  intros H. destruct H as [ | w ws Hw Hws]; [reflexivity | ].
  unfold Spec.join_single_spaces. fold (spaced ws).
  rewrite split_word_then; [ | exact Hw | apply spaced_at_word_end ].
  rewrite split_spaced; [reflexivity | exact Hws].
Qed.

Lemma join_small_or_space (words : list str) :
  Forall (Forall small_letter) words ->
  Forall small_or_space (Spec.join_single_spaces words).
Proof.
  assert (W : forall w, Forall small_letter w -> Forall small_or_space w).
  { intros w Hw. eapply Forall_impl; [ | exact Hw ].
    intros c Hc. left. exact Hc. }
  assert (S : forall ws, Forall (Forall small_letter) ws ->
                         Forall small_or_space (spaced ws)).
  { induction 1 as [ | w ws Hw Hws IH]; [constructor | ].
    change (spaced (w :: ws)) with (space :: (w ++ spaced ws)).
    constructor; [right; reflexivity | ].
    apply Forall_app. split; [apply W; exact Hw | exact IH]. }
  intros H. destruct H as [ | w ws Hw Hws]; [constructor | ].
  unfold Spec.join_single_spaces. fold (spaced ws).
  apply Forall_app. split; [apply W; exact Hw | apply S; exact Hws].
Qed.

Lemma replace_small_or_space (text : str) :
  Forall small_or_space text -> Spec.replace_non_letters text = text.
Proof.
  unfold Spec.replace_non_letters.
  induction 1 as [ | c rest Hc Hrest IH]; [reflexivity | ].
  simpl. rewrite IH. f_equal.
  destruct Hc as [Hc | ->]; [ | reflexivity ].
  rewrite (small_letter_is_letter Hc). reflexivity.
Qed.

Lemma lowercase_small_or_space_id (text : str) :
  Forall small_or_space text -> Spec.lowercase text = text.
Proof.
  unfold Spec.lowercase.
  induction 1 as [ | c rest Hc Hrest IH]; [reflexivity | ].
  simpl. rewrite IH. f_equal.
  destruct Hc as [Hc | ->]; [ | reflexivity ].
  apply small_letter_lower. exact Hc.
Qed.

Lemma small_or_space_letters (text : str) :
  Forall small_or_space text -> Forall letter_or_space text.
Proof.
  apply Forall_impl. intros c [Hc | Hc]; [left | right; exact Hc].
  apply small_letter_is_letter. exact Hc.
Qed.

(** The words of a cleaned text are made of small letters. *)
Lemma split_small_words (text : str) :
  Forall small_or_space text ->
  Forall (Forall small_letter) (Spec.split_whitespace text).
Proof.
  intros H.
  pose proof (split_whitespace_words text) as Hw.
  pose proof (split_whitespace_chars H) as Hc.
  rewrite Forall_forall in *. intros w Hin.
  specialize (Hw w Hin). specialize (Hc w Hin).
  destruct Hw as [_ Hns]. rewrite Forall_forall in *.
  intros c Hcin. destruct (Hc c Hcin) as [Hs | ->]; [exact Hs | ].
  specialize (Hns _ Hcin). discriminate.
Qed.

Lemma filter_twice {A : Type} (f : A -> bool) (l : list A) :
  filter f (filter f l) = filter f l.
Proof.
  induction l as [ | x l IH]; [reflexivity | ].
  simpl. destruct (f x) eqn:Fx; [ | exact IH ].
  simpl. rewrite Fx, IH. reflexivity.
Qed.

Lemma Forall_filter {A : Type} (P : A -> Prop) (f : A -> bool) (l : list A) :
  Forall P l -> Forall P (filter f l).
Proof.
  induction 1 as [ | x l Hx Hl IH]; [constructor | ].
  simpl. destruct (f x); [constructor; assumption | exact IH].
Qed.

Lemma kept_words_small (stop_words : list str) (text : str) :
  Forall (Forall small_letter) (kept_words stop_words text)
  /\ Forall is_word (kept_words stop_words text).
Proof.
  unfold kept_words, Spec.remove_stopwords. split.
  - apply Forall_filter. apply split_small_words.
    apply lowercase_small_or_space. apply re_sub_letters_or_spaces.
  - apply Forall_filter. apply split_whitespace_words.
Qed.

Lemma clean_clean (stop_words : list str) (text : str) :
  Spec.clean stop_words (Spec.clean stop_words text)
  = Spec.clean stop_words text.
Proof.
  change (Spec.clean stop_words text)
    with (Spec.join_single_spaces (kept_words stop_words text)).
  destruct (kept_words_small stop_words text) as [Hsmall Hwords].
  unfold Spec.clean.
  pose proof (join_small_or_space Hsmall) as Hj.
  rewrite (replace_small_or_space Hj).
  rewrite (lowercase_small_or_space_id Hj).
  rewrite (split_join Hwords).
  unfold kept_words, Spec.remove_stopwords. rewrite filter_twice.
  reflexivity.
Qed.

Section Cleaning.
Context `{RT : Runtime}.

Lemma cleaned_text_spec (stop_words : list str) (text : str) :
  cleaned_text stop_words text = Spec.clean stop_words text.
Proof.
  unfold cleaned_text, Spec.clean.
  rewrite str_join_spec, filter_stopwords_spec, str_split_spec.
  rewrite str_lower_ascii by apply re_sub_letters_or_spaces.
  reflexivity.
Qed.

Lemma predict_sentiment_cleaned (text : str) (model : pyopt Model)
    (vectorizer : pyopt Vectorizer) (stop_words : list str) :
  predict_sentiment text model vectorizer stop_words
  = vectorize_and_classify (cleaned_text stop_words text) model vectorizer
      stop_words.
Proof. reflexivity. Qed.

(** C1: for every input string, [predict_sentiment] cleans the text by the
    fixed pipeline, in this order: every character that is not an ASCII
    letter is replaced by a space, the result is lowercased and split on
    white space, every word of the stopword list is removed, and the
    remaining words are joined with single spaces; the text so cleaned is
    what is vectorized and classified. *)
Theorem predict_sentiment_cleaning_pipeline (text : str)
    (model : pyopt Model) (vectorizer : pyopt Vectorizer)
    (stop_words : list str) :
  cleaned_text stop_words text
  = Spec.join_single_spaces
      (Spec.remove_stopwords stop_words
         (Spec.split_whitespace
            (Spec.lowercase (Spec.replace_non_letters text))))
  /\ predict_sentiment text model vectorizer stop_words
     = vectorize_and_classify (Spec.clean stop_words text) model vectorizer
         stop_words.
Proof.
  split.
  - apply cleaned_text_spec.
  - rewrite predict_sentiment_cleaned, cleaned_text_spec. reflexivity.
Qed.

(** C10: the cleaning of lines 68-71 is idempotent: cleaning a cleaned
    text gives the same string as cleaning once, for every input string
    and every stopword list. *)
Theorem cleaned_text_idempotent (stop_words : list str) (text : str) :
  cleaned_text stop_words (cleaned_text stop_words text)
  = cleaned_text stop_words text.
Proof.
  rewrite !cleaned_text_spec. apply clean_clean.
Qed.

End Cleaning.

(* ================================================================== *)
(** ** The classifier wrapper *)

Section Classifying.
Context `{RT : Runtime}.

(** Whatever the arguments, a sentiment that is returned is one of the
    two labels. *)
Lemma vectorize_and_classify_labels (text : str) (model : pyopt Model)
    (vectorizer : pyopt Vectorizer) (stop_words : list str) (s : str) :
  fst (vectorize_and_classify text model vectorizer stop_words) = Ok s ->
  s = lit "Positive" \/ s = lit "Negative".
Proof.
  unfold vectorize_and_classify.
  destruct model as [m | ]; [ | discriminate ].
  destruct vectorizer as [v | ]; [ | discriminate ].
  destruct (transform v [text]) as [[X | e] v']; [ | discriminate ].
  destruct (predict m X) as [[[ | label labels] | e] m']; try discriminate.
  simpl. destruct (label =? 0)%Z; intros [= <-]; auto.
Qed.

(** C2: for every input text and every model and vectorizer,
    [predict_sentiment] returns exactly one of the two strings Positive
    and Negative: Negative when the model's prediction on the cleaned,
    vectorized text equals 0, and Positive otherwise; and whatever it is
    given, a string it returns is one of the two. *)
Theorem predict_sentiment_positive_or_negative (text : str) (m : Model)
    (v : Vectorizer) (stop_words : list str) (X : matrix) (v' : Vectorizer)
    (label : Z) (labels : list Z) (m' : Model) :
  transform v [cleaned_text stop_words text] = (Ok X, v') ->
  predict m X = (Ok (label :: labels), m') ->
  exists s : str,
    fst (predict_sentiment text (Some m) (Some v) stop_words) = Ok s
    /\ (s = lit "Positive" \/ s = lit "Negative")
    /\ (label = 0%Z -> s = lit "Negative")
    /\ (label <> 0%Z -> s = lit "Positive")
    /\ lit "Positive" <> lit "Negative"
    /\ (forall model vectorizer s',
           fst (predict_sentiment text model vectorizer stop_words) = Ok s' ->
           s' = lit "Positive" \/ s' = lit "Negative").
Proof.
  intros HX Hy.
  assert (Hany : forall model vectorizer s',
             fst (predict_sentiment text model vectorizer stop_words)
             = Ok s' ->
             s' = lit "Positive" \/ s' = lit "Negative").
  { intros model vectorizer s' H. rewrite predict_sentiment_cleaned in H.
    eapply vectorize_and_classify_labels. exact H. }
  rewrite predict_sentiment_cleaned.
  unfold vectorize_and_classify. rewrite HX, Hy. simpl.
  destruct (Z.eqb_spec label 0) as [E0 | N0].
  - exists (lit "Negative"). repeat split; auto; try contradiction.
    discriminate.
  - exists (lit "Positive"). repeat split; auto; try contradiction.
    discriminate.
Qed.

(** With library methods that leave their receivers as they were, a call
    leaves the three objects unchanged, whether it returns or raises. *)
Lemma predict_sentiment_leaves_objects
    (predict_pure : forall m X, snd (predict m X) = m)
    (transform_pure : forall v docs, snd (transform v docs) = v)
    (text : str) (model : pyopt Model) (vectorizer : pyopt Vectorizer)
    (stop_words : list str) :
  snd (predict_sentiment text model vectorizer stop_words)
  = Objects model vectorizer stop_words.
Proof.
  rewrite predict_sentiment_cleaned. unfold vectorize_and_classify.
  destruct model as [m | ]; [ | reflexivity ].
  destruct vectorizer as [v | ]; [ | reflexivity ].
  pose proof (transform_pure v [cleaned_text stop_words text]) as Hv.
  destruct (transform v [cleaned_text stop_words text]) as [[X | e] v'];
    simpl in Hv; subst v'; [ | reflexivity ].
  pose proof (predict_pure m X) as Hm.
  destruct (predict m X) as [[[ | label labels] | e] m'];
    simpl in Hm; subst m'; reflexivity.
Qed.

Lemma predict_sentiment_keeps_stop_words (text : str) (model : pyopt Model)
    (vectorizer : pyopt Vectorizer) (stop_words : list str) :
  stop_words_obj (snd (predict_sentiment text model vectorizer stop_words))
  = stop_words.
Proof.
  rewrite predict_sentiment_cleaned. unfold vectorize_and_classify.
  destruct model as [m | ]; [ | reflexivity ].
  destruct vectorizer as [v | ]; [ | reflexivity ].
  destruct (transform v _) as [[X | e] v']; [ | reflexivity ].
  destruct (predict m X) as [[[ | label labels] | e] m']; reflexivity.
Qed.

End Classifying.

(* ================================================================== *)
(** ** The card *)

Lemma starts_with_app (sub rest : str) : starts_with sub (sub ++ rest) = true.
Proof.
  induction sub as [ | c sub IH]; [reflexivity | ].
  simpl. rewrite N.eqb_refl, IH. reflexivity.
Qed.

Lemma str_contains_starts (text sub : str) :
  starts_with sub text = true -> str_contains text sub = true.
Proof.
  intros H. destruct text; simpl; rewrite H; reflexivity.
Qed.

Lemma str_contains_app (before sub rest : str) :
  str_contains (before ++ sub ++ rest) sub = true.
Proof.
  induction before as [ | c before IH].
  - apply str_contains_starts. exact (starts_with_app sub rest).
  - simpl. rewrite IH. apply orb_true_r.
Qed.

Lemma create_card_shape (tweet_text sentiment : str) :
  create_card tweet_text sentiment
  = card_open ++ card_colour sentiment ++ card_style ++ sentiment
    ++ card_middle ++ tweet_text ++ card_close.
Proof.
  unfold create_card, card_open, card_style, card_middle, card_close.
  fold (card_colour sentiment).
  repeat rewrite <- app_assoc. reflexivity.
Qed.

Lemma background_color_card (tweet_text sentiment : str) :
  background_color (create_card tweet_text sentiment)
  = Some (card_colour sentiment).
Proof.
  rewrite create_card_shape. unfold card_colour.
  destruct (str_eqb sentiment (lit "Positive")); vm_compute; reflexivity.
Qed.

(** C5: for every tweet text and sentiment string, [create_card] returns
    an HTML fragment whose background colour is #4CAF50 exactly when the
    sentiment equals Positive and #F44336 otherwise, and that contains the
    sentiment label and the tweet text verbatim. *)
Theorem create_card_colour_and_content (tweet_text sentiment : str) :
  let card := create_card tweet_text sentiment in
  (sentiment = lit "Positive" ->
   background_color card = Some (lit "#4CAF50"))
  /\ (sentiment <> lit "Positive" ->
      background_color card = Some (lit "#F44336"))
  /\ str_contains card (sentiment ++ lit " Sentiment</h5>") = true
  /\ str_contains card sentiment = true
  /\ str_contains card (lit ">" ++ tweet_text ++ lit "</p>") = true
  /\ str_contains card tweet_text = true.
Proof.
  cbv zeta. rewrite background_color_card. unfold card_colour.
  split; [ | split; [ | split; [ | split; [ | split ] ] ] ].
  - intros ->. reflexivity.
  - intros Hne. destruct (str_eqb sentiment (lit "Positive")) eqn:E.
    + apply str_eqb_eq in E. contradiction.
    + reflexivity.
  - rewrite create_card_shape.
    change card_middle
      with (lit " Sentiment</h5>"
            ++ skipn (length (lit " Sentiment</h5>")) card_middle).
    set (rest := skipn _ card_middle).
    replace (card_open ++ card_colour sentiment ++ card_style ++ sentiment
             ++ (lit " Sentiment</h5>" ++ rest) ++ tweet_text ++ card_close)
      with ((card_open ++ card_colour sentiment ++ card_style)
            ++ (sentiment ++ lit " Sentiment</h5>")
            ++ (rest ++ tweet_text ++ card_close))
      by (repeat rewrite <- app_assoc; reflexivity).
    apply str_contains_app.
  - rewrite create_card_shape.
    replace (card_open ++ card_colour sentiment ++ card_style ++ sentiment
             ++ card_middle ++ tweet_text ++ card_close)
      with ((card_open ++ card_colour sentiment ++ card_style)
            ++ sentiment ++ (card_middle ++ tweet_text ++ card_close))
      by (repeat rewrite <- app_assoc; reflexivity).
    apply str_contains_app.
  - rewrite create_card_shape.
    change card_middle
      with (firstn (length card_middle - 1) card_middle ++ lit ">").
    set (before := firstn _ card_middle).
    change card_close
      with (lit "</p>" ++ skipn (length (lit "</p>")) card_close).
    set (rest := skipn _ card_close).
    replace (card_open ++ card_colour sentiment ++ card_style ++ sentiment
             ++ (before ++ lit ">") ++ tweet_text ++ lit "</p>" ++ rest)
      with ((card_open ++ card_colour sentiment ++ card_style ++ sentiment
             ++ before)
            ++ (lit ">" ++ tweet_text ++ lit "</p>") ++ rest)
      by (repeat rewrite <- app_assoc; reflexivity).
    apply str_contains_app.
  - rewrite create_card_shape.
    replace (card_open ++ card_colour sentiment ++ card_style ++ sentiment
             ++ card_middle ++ tweet_text ++ card_close)
      with ((card_open ++ card_colour sentiment ++ card_style ++ sentiment
             ++ card_middle) ++ tweet_text ++ card_close)
      by (repeat rewrite <- app_assoc; reflexivity).
    apply str_contains_app.
Qed.

(* ================================================================== *)
(** ** Running the script: logs, objects and results *)

Section Running.
Context `{RT : Runtime}.

Lemma bind_ok {A B : Type} (m : M A) (f : A -> M B) (o : objects) (a : A) :
  res (m o) = Ok a ->
  bind m f o
  = Outcome (res (f a (objs (m o)))) (objs (f a (objs (m o))))
      (log (m o) ++ log (f a (objs (m o)))).
Proof.
  unfold bind. destruct (m o) as [[a' | e] o1 l1]; simpl; [ | discriminate ].
  intros [= ->]. destruct (f a o1); reflexivity.
Qed.

Lemma bind_raise {A B : Type} (m : M A) (f : A -> M B) (o : objects)
    (e : exn) :
  res (m o) = Raise e ->
  bind m f o = Outcome (Raise e) (objs (m o)) (log (m o)).
Proof.
  unfold bind. destruct (m o) as [[a | e'] o1 l1]; simpl; [discriminate | ].
  intros [= ->]. reflexivity.
Qed.

Lemma bind_res_ok {A B : Type} (m : M A) (f : A -> M B) (o : objects)
    (b : B) :
  res (bind m f o) = Ok b ->
  exists a, res (m o) = Ok a /\ res (f a (objs (m o))) = Ok b.
Proof.
  destruct (res (m o)) as [a | e] eqn:R.
  - rewrite (bind_ok m f o R). simpl. intros H. exists a. auto.
  - rewrite (bind_raise m f o R). discriminate.
Qed.

(** One step of a sequence, by what the step is. *)
Lemma bind_emit {B : Type} (e : event) (k : unit -> M B) (o : objects) :
  bind (emit e) k o
  = Outcome (res (k tt o)) (objs (k tt o)) (e :: log (k tt o)).
Proof. unfold bind, emit. destruct (k tt o); reflexivity. Qed.

Lemma bind_lift_ok {A B : Type} (a : A) (k : A -> M B) (o : objects) :
  bind (lift (Ok a)) k o = k a o.
Proof. unfold bind, lift. destruct (k a o); reflexivity. Qed.

Lemma bind_lift_raise {A B : Type} (e : exn) (k : A -> M B) (o : objects) :
  bind (lift (Raise e)) k o = Outcome (Raise e) o [].
Proof. reflexivity. Qed.

Lemma bind_ret {A B : Type} (a : A) (k : A -> M B) (o : objects) :
  bind (ret a) k o = k a o.
Proof. unfold bind, ret. destruct (k a o); reflexivity. Qed.

Lemma try_except_ok {A : Type} (body : M A) (handler : exn -> M A)
    (o : objects) (a : A) :
  res (body o) = Ok a -> try_except body handler o = body o.
Proof.
  unfold try_except. destruct (body o) as [[a' | e] o1 l1]; simpl;
    [reflexivity | discriminate].
Qed.

Lemma try_except_raise {A : Type} (body : M A) (handler : exn -> M A)
    (o : objects) (e : exn) :
  res (body o) = Raise e ->
  is_Exception e = true ->
  try_except body handler o
  = Outcome (res (handler e (objs (body o))))
      (objs (handler e (objs (body o))))
      (log (body o) ++ log (handler e (objs (body o)))).
Proof.
  unfold try_except. destruct (body o) as [[a | e'] o1 l1]; simpl;
    [discriminate | ].
  intros [= ->] ->. destruct (handler e o1); reflexivity.
Qed.

Lemma try_except_through {A : Type} (body : M A) (handler : exn -> M A)
    (o : objects) (e : exn) :
  res (body o) = Raise e ->
  is_Exception e = false ->
  try_except body handler o = body o.
Proof.
  unfold try_except. destruct (body o) as [[a | e'] o1 l1]; simpl;
    [discriminate | ].
  intros [= ->] ->. reflexivity.
Qed.

(** *** Objects *)

Lemma preserves_ret {A : Type} (a : A) : preserves (ret a).
Proof. intros o. reflexivity. Qed.

Lemma preserves_emit (e : event) : preserves (emit e).
Proof. intros o. reflexivity. Qed.

Lemma preserves_lift {A : Type} (r : result A) : preserves (lift r).
Proof. intros o. reflexivity. Qed.

Lemma preserves_bind {A B : Type} (m : M A) (f : A -> M B) :
  preserves m -> (forall a, preserves (f a)) -> preserves (bind m f).
Proof.
  intros Hm Hf o. destruct (res (m o)) as [a | e] eqn:R.
  - rewrite (bind_ok m f o R). simpl. rewrite Hm. apply Hf.
  - rewrite (bind_raise m f o R). simpl. apply Hm.
Qed.

Lemma preserves_try_except {A : Type} (body : M A) (handler : exn -> M A) :
  preserves body -> (forall e, preserves (handler e)) ->
  preserves (try_except body handler).
Proof.
  intros Hb Hh o. destruct (res (body o)) as [a | e] eqn:R.
  - rewrite (try_except_ok body handler o R). apply Hb.
  - destruct (is_Exception e) eqn:Ex.
    + rewrite (try_except_raise body handler o R Ex). simpl.
      rewrite Hb. apply Hh.
    + rewrite (try_except_through body handler o R Ex). apply Hb.
Qed.

Lemma preserves_for_each {A : Type} (xs : list A) (body : A -> M unit) :
  (forall x, preserves (body x)) -> preserves (for_each xs body).
Proof.
  intros Hb. induction xs as [ | x xs IH]; simpl.
  - apply preserves_ret.
  - apply preserves_bind; [apply Hb | intros _; exact IH].
Qed.

(** *** Logs *)

Lemma logs_only_ret {A : Type} (P : event -> Prop) (a : A) :
  logs_only P (ret a).
Proof. intros o. constructor. Qed.

Lemma logs_only_lift {A : Type} (P : event -> Prop) (r : result A) :
  logs_only P (lift r).
Proof. intros o. constructor. Qed.

Lemma logs_only_emit (P : event -> Prop) (e : event) :
  P e -> logs_only P (emit e).
Proof. intros H o. simpl. constructor; [exact H | constructor]. Qed.

Lemma logs_only_bind {A B : Type} (P : event -> Prop) (m : M A)
    (f : A -> M B) :
  logs_only P m -> (forall a, logs_only P (f a)) -> logs_only P (bind m f).
Proof.
  intros Hm Hf o. destruct (res (m o)) as [a | e] eqn:R.
  - rewrite (bind_ok m f o R). simpl.
    apply Forall_app. split; [apply Hm | apply Hf].
  - rewrite (bind_raise m f o R). simpl. apply Hm.
Qed.

Lemma logs_only_try_except {A : Type} (P : event -> Prop) (body : M A)
    (handler : exn -> M A) :
  logs_only P body -> (forall e, logs_only P (handler e)) ->
  logs_only P (try_except body handler).
Proof.
  intros Hb Hh o. destruct (res (body o)) as [a | e] eqn:R.
  - rewrite (try_except_ok body handler o R). apply Hb.
  - destruct (is_Exception e) eqn:Ex.
    + rewrite (try_except_raise body handler o R Ex). simpl.
      apply Forall_app. split; [apply Hb | apply Hh].
    + rewrite (try_except_through body handler o R Ex). apply Hb.
Qed.

Lemma logs_only_for_each {A : Type} (P : event -> Prop) (xs : list A)
    (body : A -> M unit) :
  (forall x, logs_only P (body x)) -> logs_only P (for_each xs body).
Proof.
  intros Hb. induction xs as [ | x xs IH]; simpl.
  - apply logs_only_ret.
  - apply logs_only_bind; [apply Hb | intros _; exact IH].
Qed.

Lemma logs_only_cache_resource {A : Type} (P : event -> Prop) (f : fn)
    (cached : option (A * list element)) (body : M A) :
  P (Call f) -> P (Return f) ->
  (forall el, P (event_of_element el)) ->
  logs_only P body ->
  logs_only P (cache_resource f cached body).
Proof.
  intros Hc Hr Hel Hb. unfold cache_resource.
  apply logs_only_bind; [apply logs_only_emit; exact Hc | intros _].
  apply logs_only_bind.
  - destruct cached as [[v elements] | ]; [ | exact Hb ].
    apply logs_only_bind; [ | intros _; apply logs_only_ret ].
    apply logs_only_for_each. intros el. apply logs_only_emit. apply Hel.
  - intros v. apply logs_only_bind;
      [apply logs_only_emit; exact Hr | intros _; apply logs_only_ret].
Qed.

(** *** Returns of the loaders *)

Lemma returned_app (f : fn) (l1 l2 : list event) :
  returned f (l1 ++ l2) = returned f l1 || returned f l2.
Proof. unfold returned. apply existsb_app. Qed.

Lemma returns_after_bind_l {A B : Type} (f : fn) (m : M A) (k : A -> M B) :
  returns_after f m -> returns_after f (bind m k).
Proof.
  intros Hm o b Hb. destruct (bind_res_ok m k o Hb) as (a & Ha & _).
  rewrite (bind_ok m k o Ha). simpl. rewrite returned_app.
  rewrite (Hm o a Ha). reflexivity.
Qed.

Lemma returns_after_bind_r {A B : Type} (f : fn) (m : M A) (k : A -> M B) :
  (forall a, returns_after f (k a)) -> returns_after f (bind m k).
Proof.
  intros Hk o b Hb. destruct (bind_res_ok m k o Hb) as (a & Ha & Hka).
  rewrite (bind_ok m k o Ha). simpl. rewrite returned_app.
  rewrite (Hk a _ b Hka). apply orb_true_r.
Qed.

Lemma returns_after_cache_resource {A : Type} (f : fn)
    (cached : option (A * list element)) (body : M A) :
  returns_after f (cache_resource f cached body).
Proof.
  unfold cache_resource.
  apply returns_after_bind_r. intros _.
  apply returns_after_bind_r. intros v.
  apply returns_after_bind_l.
  intros o a _. destruct f; reflexivity.
Qed.

End Running.

(* ================================================================== *)
(** ** The loader *)

Section Loading.
Context `{RT : Runtime}.
Variable E : env.

(** C3, as the code has it: if an instance of [Exception] is raised
    while opening or deserializing the model or the vectorizer file,
    [load_model_and_vectorizer] catches it, displays an error message and
    returns the pair (None, None); an exception that is not an instance
    of [Exception] is not caught: it leaves the function and nothing is
    displayed; when nothing is raised the function returns the
    deserialized pair. *)
Theorem load_model_and_vectorizer_outcome (o : objects) :
  let r := load_model_and_vectorizer E o in
  objs r = o
  /\ match open_model E, pickle_load_model E,
           open_vectorizer E, pickle_load_vectorizer E with
     | Ok _, Ok model, Ok _, Ok vectorizer =>
         res r = Ok (model, vectorizer) /\ displayed_errors (log r) = []
     | Raise e, _, _, _
     | Ok _, Raise e, _, _
     | Ok _, Ok _, Raise e, _
     | Ok _, Ok _, Ok _, Raise e =>
         if is_Exception e then
           res r = Ok (None, None)
           /\ displayed_errors (log r)
              = [lit "Failed to load model files: " ++ exn_str e]
         else
           res r = Raise e /\ displayed_errors (log r) = []
     end.
Proof.
  unfold load_model_and_vectorizer, try_except, bind, lift, emit, ret.
  destruct (open_model E) as [[] | e1]; cbv beta iota;
    [ destruct (pickle_load_model E) as [model | e2]; cbv beta iota;
      [ destruct (open_vectorizer E) as [[] | e3]; cbv beta iota;
        [ destruct (pickle_load_vectorizer E) as [vectorizer | e4];
          cbv beta iota
        | ]
      | ]
    | ];
    try (split; [reflexivity | split; reflexivity]);
    match goal with
    | |- context [is_Exception ?e] => destruct (is_Exception e)
    end;
    (split; [reflexivity | split; reflexivity]).
Qed.

End Loading.

(* ================================================================== *)
(** ** The order of the calls in [main] *)

Lemma predicted_texts_quiet (l : list event) :
  Forall not_predict l -> predicted_texts l = [].
Proof.
  induction 1 as [ | e l He Hl IH]; [reflexivity | ].
  simpl. rewrite IH. destruct e; try reflexivity. contradiction.
Qed.

Lemma rendered_quiet (l : list event) :
  Forall not_card l -> rendered l = [].
Proof.
  induction 1 as [ | e l He Hl IH]; [reflexivity | ].
  simpl. rewrite IH. destruct e; try reflexivity.
  destruct unsafe_allow_html; [contradiction | reflexivity].
Qed.

Lemma load_before_use_loaded (l : list event) :
  load_before_use true true l = true.
Proof.
  induction l as [ | e l IH]; [reflexivity | ].
  destruct e; simpl; try exact IH. destruct f; exact IH.
Qed.

Lemma load_before_use_app (l1 l2 : list event) (a b : bool) :
  Forall not_predict l1 ->
  load_before_use a b (l1 ++ l2)
  = load_before_use (a || returned F_load_stopwords l1)
      (b || returned F_load_model_and_vectorizer l1) l2.
Proof.
  intros H. revert a b. induction H as [ | e l1 He Hl IH]; intros a b.
  - simpl. rewrite !orb_false_r. reflexivity.
  - destruct e; try contradiction;
      try (simpl; rewrite IH; reflexivity).
    destruct f; simpl; rewrite IH; rewrite ?orb_true_r; reflexivity.
Qed.

Lemma load_before_use_quiet (l : list event) (a b : bool) :
  Forall not_predict l -> load_before_use a b l = true.
Proof.
  intros H. rewrite <- (app_nil_r l). rewrite load_before_use_app by exact H.
  reflexivity.
Qed.

Ltac logs :=
  repeat first
    [ apply logs_only_ret
    | apply logs_only_lift
    | apply logs_only_emit; solve [repeat split; exact I]
    | apply logs_only_cache_resource;
        [ solve [repeat split; exact I]
        | solve [repeat split; exact I]
        | solve [intros [ | | ]; repeat split; exact I] | ]
    | apply logs_only_bind; [ | intros ? ]
    | apply logs_only_try_except; [ | intros ? ]
    | match goal with
      | |- logs_only _ (match ?x with _ => _ end) => destruct x
      end ].

Section Ordering.
Context `{RT : Runtime}.
Variable E : env.

Lemma try_instances_setup_events (instances : list str) :
  logs_only setup_event (try_instances E instances).
Proof.
  induction instances as [ | instance rest IH]; simpl.
  - apply logs_only_ret.
  - unfold call_Nitter, call_get_tweets. logs. exact IH.
Qed.

Lemma main_setup_events : logs_only setup_event (main_setup E).
Proof.
  unfold main_setup, load_stopwords, load_model_and_vectorizer,
    initialize_scraper, assign_stop_words, assign_model_vectorizer,
    call_Nitter.
  logs; intros o; constructor.
Qed.

Lemma main_setup_quiet (o : objects) :
  Forall not_predict (log (main_setup E o))
  /\ Forall not_card (log (main_setup E o)).
Proof.
  pose proof (main_setup_events o) as H.
  split; eapply Forall_impl; try exact H; intros e [Hp Hc]; assumption.
Qed.

Lemma main_setup_returns :
  returns_after F_load_stopwords (main_setup E)
  /\ returns_after F_load_model_and_vectorizer (main_setup E).
Proof.
  unfold main_setup. split.
  - do 4 (apply returns_after_bind_r; intros ?).
    apply returns_after_bind_l. apply returns_after_cache_resource.
  - do 6 (apply returns_after_bind_r; intros ?).
    apply returns_after_bind_l. apply returns_after_cache_resource.
Qed.

(** C8: load before use. In every execution of [main], [load_stopwords]
    and [load_model_and_vectorizer] have been called, and have returned,
    before any call of [predict_sentiment]. *)
Theorem main_loads_before_use (o : objects) :
  load_before_use false false (log (main E o)) = true.
Proof.
  unfold main.
  destruct (main_setup_quiet o) as [Hquiet _].
  destruct (res (main_setup E o)) as [scraper | e] eqn:R.
  - rewrite (bind_ok _ _ _ R). simpl log.
    rewrite load_before_use_app by exact Hquiet.
    destruct main_setup_returns as [Hsw Hmv].
    rewrite (Hsw o scraper R), (Hmv o scraper R). simpl.
    apply load_before_use_loaded.
  - rewrite (bind_raise _ _ _ R). simpl log.
    apply load_before_use_quiet. exact Hquiet.
Qed.

End Ordering.

(* ================================================================== *)
(** ** A run without a model *)

Section WithoutModel.
Context `{RT : Runtime}.
Variable E : env.

(** C9: when [load_model_and_vectorizer] has returned the fallback
    (None, None), [main] still calls [predict_sentiment] with [model=None]
    and [vectorizer=None] for a text that is not all white space, and the
    call fails on the attribute access on [None]: no sentiment is
    produced and the error is not handled, it leaves [main]. *)
Theorem main_predicts_without_model (scraper : pyopt Scraper)
    (stop_words : list str) (l : list event) :
  main_setup E unbound
  = Outcome (Ok scraper) (Objects None None stop_words) l ->
  button_analyze E = true ->
  str_truthy (str_strip (text_area E)) = true ->
  let r := main E unbound in
  res r = Raise (AttributeError_None "predict")
  /\ log r = l ++ [ St_tabs [ [128292%N] ++ lit " Analyze Text";
                              [128038%N] ++ lit " Analyze Tweets" ];
                    St_text_area (lit "Enter text to analyze:");
                    St_button (lit "Analyze Sentiment");
                    Call_predict_sentiment (text_area E) true true ]
  /\ rendered (log r) = []
  /\ displayed_errors (log r) = displayed_errors l.
Proof.
  intros Hsetup Hbutton Htext.
  assert (Hl : rendered l = []).
  { destruct (main_setup_quiet E unbound) as [_ Hc].
    rewrite Hsetup in Hc. apply rendered_quiet. exact Hc. }
  assert (Hmain : main E unbound
                  = Outcome (Raise (AttributeError_None "predict"))
                      (Objects None None stop_words)
                      (l ++ [ St_tabs [ [128292%N] ++ lit " Analyze Text";
                                        [128038%N] ++ lit " Analyze Tweets" ];
                              St_text_area (lit "Enter text to analyze:");
                              St_button (lit "Analyze Sentiment");
                              Call_predict_sentiment (text_area E) true
                                true ])).
  { unfold main, bind at 1. rewrite Hsetup.
    unfold tab1. rewrite Hbutton, Htext.
    unfold bind, emit, call_predict_sentiment.
    cbn [model_obj vectorizer_obj stop_words_obj is_None].
    rewrite predict_sentiment_cleaned. reflexivity. }
  cbv zeta. rewrite Hmain. simpl res. simpl log.
  split; [reflexivity | split; [reflexivity | ] ].
  unfold rendered, displayed_errors. rewrite !flat_map_app.
  fold (rendered l). rewrite Hl. simpl. rewrite app_nil_r.
  split; reflexivity.
Qed.

End WithoutModel.

(* ================================================================== *)
(** ** The objects after loading *)

Section ReadOnly.
Context `{RT : Runtime}.
Hypothesis predict_pure : forall m X, snd (predict m X) = m.
Hypothesis transform_pure : forall v docs, snd (transform v docs) = v.

Lemma preserves_call_predict_sentiment (text : str) :
  preserves (call_predict_sentiment text).
Proof.
  intros o. unfold call_predict_sentiment.
  pose proof (predict_sentiment_leaves_objects predict_pure transform_pure
                text (model_obj o) (vectorizer_obj o) (stop_words_obj o))
    as H.
  destruct (predict_sentiment _ _ _ _) as [r o']. simpl in *.
  rewrite H. destruct o; reflexivity.
Qed.

Ltac keeps :=
  repeat first
    [ apply preserves_ret
    | apply preserves_lift
    | apply preserves_emit
    | apply preserves_call_predict_sentiment
    | apply preserves_bind; [ | intros ? ]
    | apply preserves_try_except; [ | intros ? ]
    | apply preserves_for_each; intros ?
    | match goal with
      | |- preserves (match ?x with _ => _ end) => destruct x
      end ].

Lemma preserves_tab1 (E : env) : preserves (tab1 E).
Proof. unfold tab1. keeps. Qed.

Lemma preserves_tab2 (E : env) (scraper : pyopt Scraper) :
  preserves (tab2 E scraper).
Proof.
  unfold tab2, fetch_and_analyze, analyze_tweet, call_get_tweets. keeps.
Qed.

(** C6: the loaded artifacts are read-only after load. With library
    methods that leave their receivers as they were, a call of
    [predict_sentiment] leaves the model, the vectorizer and the stopword
    list unchanged, whether it returns or raises, and nothing [main] does
    after its loading step changes them: at the end of a run they are as
    the loading step left them. *)
Theorem artifacts_read_only_after_load :
  (forall text model vectorizer stop_words,
      snd (predict_sentiment text model vectorizer stop_words)
      = Objects model vectorizer stop_words)
  /\ (forall E o, objs (tab1 E o) = o)
  /\ (forall E scraper o, objs (tab2 E scraper o) = o)
  /\ (forall E o, objs (main E o) = objs (main_setup E o)).
Proof.
  split; [ | split; [ | split ] ].
  - intros. apply predict_sentiment_leaves_objects; assumption.
  - intros E o. apply preserves_tab1.
  - intros E scraper o. apply preserves_tab2.
  - intros E o. unfold main.
    destruct (res (main_setup E o)) as [scraper | e] eqn:R.
    + rewrite (bind_ok _ _ _ R). simpl objs.
      assert (H : preserves
                    (emit (St_tabs [ [128292%N] ++ lit " Analyze Text";
                                     [128038%N] ++ lit " Analyze Tweets" ]);;
                     tab1 E;; tab2 E scraper)).
      { apply preserves_bind; [apply preserves_emit | intros _].
        apply preserves_bind; [apply preserves_tab1 | intros _].
        apply preserves_tab2. }
      apply H.
    + rewrite (bind_raise _ _ _ R). reflexivity.
Qed.

End ReadOnly.

(* ================================================================== *)
(** ** The calls to the scraping service *)

Lemma get_tweets_calls_quiet (l : list event) :
  Forall not_get_tweets l -> get_tweets_calls l = [].
Proof.
  induction 1 as [ | e l He Hl IH]; [reflexivity | ].
  simpl. rewrite IH. destruct e; try reflexivity. contradiction.
Qed.

Lemma get_tweets_calls_app (l1 l2 : list event) :
  get_tweets_calls (l1 ++ l2) = get_tweets_calls l1 ++ get_tweets_calls l2.
Proof. apply flat_map_app. Qed.

Section Fetching.
Context `{RT : Runtime}.

Lemma logs_only_call_predict_sentiment (P : event -> Prop) (text : str) :
  (forall t a b, P (Call_predict_sentiment t a b)) ->
  logs_only P (call_predict_sentiment text).
Proof.
  intros H o. unfold call_predict_sentiment.
  destruct (predict_sentiment _ _ _ _) as [r o']. simpl.
  constructor; [apply H | constructor].
Qed.

Lemma analyze_tweet_no_fetch (tweet : tweet) :
  logs_only not_get_tweets (analyze_tweet tweet).
Proof.
  unfold analyze_tweet. logs.
  apply logs_only_call_predict_sentiment. intros; exact I.
Qed.

Variable E : env.

Lemma call_get_tweets_run (scraper : Scraper) (terms : str)
    (number max_retries : Z) (o : objects) :
  call_get_tweets E scraper terms number max_retries o
  = Outcome (get_tweets E scraper terms number max_retries) o
      [Call_get_tweets terms number max_retries].
Proof.
  unfold call_get_tweets. rewrite bind_emit. reflexivity.
Qed.

Lemma fetch_and_analyze_calls (scraper : Scraper) (username : str)
    (o : objects) :
  get_tweets_calls (log (fetch_and_analyze E scraper username o))
  = [(username, 5%Z, 3%Z)].
Proof.
  unfold fetch_and_analyze, call_get_tweets.
  set (rest := fun tweets_data : pyopt tweets_data =>
                 match tweets_entry tweets_data with
                 | Some tweets => _
                 | None => _
                 end).
  assert (Hrest : forall td, logs_only not_get_tweets (rest td)).
  { intros td. unfold rest.
    destruct (tweets_entry td) as [[ | t l] | ].
    - apply logs_only_emit. exact I.
    - apply logs_only_bind; [apply logs_only_emit; exact I | intros _].
      apply logs_only_for_each. apply analyze_tweet_no_fetch.
    - apply logs_only_emit. exact I. }
  unfold try_except, bind, emit, lift.
  destruct (get_tweets E scraper username 5 3) as [td | e];
    [ | destruct (is_Exception e); reflexivity ].
  pose proof (get_tweets_calls_quiet (Hrest td o)) as Hq.
  destruct (rest td o) as [[[] | e] o1 l1];
    try destruct (is_Exception e); simpl in *;
    rewrite ?get_tweets_calls_app, Hq; reflexivity.
Qed.

Lemma tab2_calls (scraper : pyopt Scraper) (o : objects) :
  get_tweets_calls (log (tab2 E scraper o)) = []
  \/ get_tweets_calls (log (tab2 E scraper o)) = [(text_input E, 5%Z, 3%Z)].
Proof.
  unfold tab2. destruct scraper as [scraper | ]; [ | left; reflexivity ].
  rewrite bind_emit. cbn [log]. rewrite bind_emit. cbn [log].
  change (get_tweets_calls (?a :: ?b :: ?l)) with (get_tweets_calls l).
  destruct (button_fetch E); [ | left; reflexivity ].
  destruct (negb _); [left; reflexivity | right].
  apply fetch_and_analyze_calls.
Qed.

(** *** Every tweet of the response *)

Lemma call_predict_sentiment_outcome (text : str) (o : objects) :
  call_predict_sentiment text o
  = Outcome
      (fst (predict_sentiment text (model_obj o) (vectorizer_obj o)
              (stop_words_obj o)))
      (snd (predict_sentiment text (model_obj o) (vectorizer_obj o)
              (stop_words_obj o)))
      [Call_predict_sentiment text (is_None (model_obj o))
         (is_None (vectorizer_obj o))].
Proof.
  unfold call_predict_sentiment.
  destruct (predict_sentiment _ _ _ _) as [r o']. reflexivity.
Qed.

(** The loop of lines 142-145: the tweets before the first that fails
    are classified and rendered, each card with the sentiment found for
    its text; the one that fails ends the loop with its exception. *)
Lemma analyze_tweets_run (tweets : list tweet) (o : objects) :
  exists classified rest pairs o1 l,
    tweets = classified ++ rest
    /\ analyzed o classified pairs o1
    /\ log (for_each tweets analyze_tweet o) = l
    /\ rendered l = map card_of_pair pairs
    /\ get_tweets_calls l = []
    /\ (rest = []
        /\ res (for_each tweets analyze_tweet o) = Ok tt
        /\ predicted_texts l = map fst pairs
        \/ exists failing rest',
             rest = failing :: rest'
             /\ fails o1 failing
             /\ (exists e, res (for_each tweets analyze_tweet o) = Raise e)
             /\ predicted_texts l
                = map fst pairs ++ attempted_text failing).
Proof.
  revert o. induction tweets as [ | tw tweets IH]; intros o.
  - exists [], [], [], o, [].
    split; [reflexivity | ]. split; [constructor | ].
    split; [reflexivity | ]. split; [reflexivity | ].
    split; [reflexivity | ]. left. repeat split.
  - cbn [for_each].
    destruct (tw_text tw) as [text | ] eqn:T.
    + pose proof (call_predict_sentiment_outcome text o) as Hcall.
      destruct (predict_sentiment text (model_obj o) (vectorizer_obj o)
                  (stop_words_obj o)) as [[s | e] o1] eqn:P;
        cbn [fst snd] in Hcall.
      * assert (Hone : analyze_tweet tw o
                       = Outcome (Ok tt) o1
                           [Call_predict_sentiment text
                              (is_None (model_obj o))
                              (is_None (vectorizer_obj o));
                            St_markdown (create_card text s) true]).
        { unfold analyze_tweet. rewrite T, bind_lift_ok.
          rewrite (bind_ok _ _ o (a := s)) by (rewrite Hcall; reflexivity).
          rewrite Hcall. reflexivity. }
        rewrite (bind_ok _ _ o (a := tt)) by (rewrite Hone; reflexivity).
        rewrite Hone. cbn [res objs log].
        destruct (IH o1)
          as (classified & rest & pairs & o2 & l & Hsplit & Han & Hlog
              & Hr & Hg & Hend).
        exists (tw :: classified), rest, ((text, s) :: pairs), o2.
        eexists. split; [rewrite Hsplit; reflexivity | ].
        split; [eapply analyzed_cons; eassumption | ].
        split; [reflexivity | ].
        rewrite Hlog.
        split; [simpl; rewrite Hr; reflexivity | ].
        split; [simpl; exact Hg | ].
        destruct Hend as [(Hnil & Hres & Hp)
                         | (failing & rest' & Hrest & Hf & He & Hp)].
        -- left. split; [exact Hnil | ]. split; [exact Hres | ].
           simpl. rewrite Hp. reflexivity.
        -- right. exists failing, rest'. split; [exact Hrest | ].
           split; [exact Hf | ]. split; [exact He | ].
           simpl. rewrite Hp. reflexivity.
      * assert (Hone : analyze_tweet tw o
                       = Outcome (Raise e) o1
                           [Call_predict_sentiment text
                              (is_None (model_obj o))
                              (is_None (vectorizer_obj o))]).
        { unfold analyze_tweet. rewrite T, bind_lift_ok.
          rewrite (bind_raise _ _ o (e := e))
            by (rewrite Hcall; reflexivity).
          rewrite Hcall. reflexivity. }
        rewrite (bind_raise _ _ o (e := e)) by (rewrite Hone; reflexivity).
        rewrite Hone. cbn [res objs log].
        exists [], (tw :: tweets), [], o. eexists.
        split; [reflexivity | ]. split; [constructor | ].
        split; [reflexivity | ]. split; [reflexivity | ].
        split; [reflexivity | ].
        right. exists tw, tweets. split; [reflexivity | ].
        split; [right; exists text, e, o1; split; assumption | ].
        split; [exists e; reflexivity | ].
        unfold attempted_text. rewrite T. reflexivity.
    + assert (Hone : analyze_tweet tw o
                     = Outcome (Raise (KeyError "text")) o []).
      { unfold analyze_tweet. rewrite T. apply bind_lift_raise. }
      rewrite (bind_raise _ _ o (e := KeyError "text"))
        by (rewrite Hone; reflexivity).
      rewrite Hone. cbn [res objs log].
      exists [], (tw :: tweets), [], o. eexists.
      split; [reflexivity | ]. split; [constructor | ].
      split; [reflexivity | ]. split; [reflexivity | ].
      split; [reflexivity | ].
      right. exists tw, tweets. split; [reflexivity | ].
      split; [left; exact T | ].
      split; [exists (KeyError "text"); reflexivity | ].
      unfold attempted_text. rewrite T. reflexivity.
Qed.

(** What a handler that only displays adds to a log. *)
Lemma try_except_log {A : Type} (body : M A) (handler : exn -> M A)
    (o : objects) :
  log (try_except body handler o) = log (body o)
  \/ exists e, res (body o) = Raise e
               /\ log (try_except body handler o)
                  = log (body o) ++ log (handler e (objs (body o))).
Proof.
  destruct (res (body o)) as [a | e] eqn:R.
  - left. rewrite (try_except_ok body handler o R). reflexivity.
  - destruct (is_Exception e) eqn:Ex.
    + right. exists e. split; [reflexivity | ].
      rewrite (try_except_raise body handler o R Ex). reflexivity.
    + left. rewrite (try_except_through body handler o R Ex). reflexivity.
Qed.

(** C7, as the code has it: the fetch in [main] requests exactly 5
    tweets, in one call; the tweets of the response's list are classified
    and rendered in the order of the list, each card carrying the
    sentiment that [predict_sentiment] returned for the text of its
    tweet, up to the first tweet that has no text or whose classification
    raises: this one and those after it are not rendered. When no tweet
    fails, every tweet of the list is classified and rendered. *)
Theorem fetch_requests_five_and_analyzes_in_order (scraper : Scraper)
    (o : objects) (response : pyopt tweets_data) (tweets : list tweet) :
  button_fetch E = true ->
  str_truthy (str_strip (text_input E)) = true ->
  get_tweets E scraper (text_input E) 5 3 = Ok response ->
  tweets_entry response = Some tweets ->
  let r := tab2 E (Some scraper) o in
  get_tweets_calls (log r) = [(text_input E, 5%Z, 3%Z)]
  /\ (exists classified rest pairs o1,
         tweets = classified ++ rest
         /\ analyzed o classified pairs o1
         /\ rendered (log r) = map card_of_pair pairs
         /\ (rest = [] /\ predicted_texts (log r) = map fst pairs
             \/ exists failing rest',
                  rest = failing :: rest'
                  /\ fails o1 failing
                  /\ predicted_texts (log r)
                     = map fst pairs ++ attempted_text failing))
  /\ (forall scraper' o',
         Forall (fun call => call = (text_input E, 5%Z, 3%Z))
           (get_tweets_calls (log (tab2 E scraper' o')))).
Proof.
  intros Hbutton Huser Hresponse Htweets.
  assert (Hall : forall scraper' o',
             Forall (fun call => call = (text_input E, 5%Z, 3%Z))
               (get_tweets_calls (log (tab2 E scraper' o')))).
  { intros scraper' o'. destruct (tab2_calls scraper' o') as [-> | ->].
    - constructor.
    - constructor; [reflexivity | constructor]. }
  cbv zeta.
  split; [ | split; [ | exact Hall ] ].
  { destruct (tab2_calls (Some scraper) o) as [H | H]; [ | exact H ].
    exfalso. revert H. unfold tab2. rewrite bind_emit, bind_emit.
    rewrite Hbutton, Huser. cbn [negb log].
    change (get_tweets_calls (?a :: ?b :: ?x)) with (get_tweets_calls x).
    rewrite fetch_and_analyze_calls. discriminate. }
  destruct (analyze_tweets_run tweets o)
    as (classified & rest & pairs & o1 & l & Hsplit & Han & Hlog & Hr & _
        & Hend).
  exists classified, rest, pairs, o1.
  split; [exact Hsplit | ]. split; [exact Han | ].
  (* the log of the block: the widgets, the fetch, the loop, the handler *)
  assert (Hrun : exists before after,
             log (tab2 E (Some scraper) o) = before ++ l ++ after
             /\ rendered before = [] /\ rendered after = []
             /\ predicted_texts before = []
             /\ predicted_texts after = []).
  { unfold tab2. rewrite bind_emit, bind_emit, Hbutton, Huser.
    cbn [negb log]. unfold fetch_and_analyze.
    lazymatch goal with
    | |- context [try_except ?b ?h] => set (body := b); set (handler := h)
    end.
    assert (Hbody : exists before',
               log (body o) = before' ++ l
               /\ rendered before' = []
               /\ predicted_texts before' = []).
    { unfold body. rewrite bind_emit. cbn [log].
      erewrite bind_ok
        by (rewrite call_get_tweets_run, Hresponse; reflexivity).
      rewrite call_get_tweets_run. cbn [res objs log]. rewrite Htweets.
      destruct tweets as [ | tw tweets'].
      - simpl in Hlog. subst l. eexists. rewrite app_nil_r.
        split; [reflexivity | split; reflexivity].
      - rewrite bind_emit. cbn [log]. rewrite Hlog.
        exists [ St_spinner (lit "Fetching tweets from @" ++ text_input E
                             ++ lit "...");
                 Call_get_tweets (text_input E) 5 3;
                 St_success (lit "Found "
                             ++ str_of_nat (length (tw :: tweets'))
                             ++ lit " recent tweets") ].
        split; [reflexivity | split; reflexivity]. }
    destruct Hbody as (before' & Hbody & Hrb & Hpb).
    destruct (try_except_log body handler o) as [Hl | (e & _ & Hl)];
      rewrite Hl, Hbody.
    - exists (St_text_input (lit "Enter Twitter username:")
              :: St_button (lit "Fetch & Analyze Tweets") :: before'), [].
      rewrite app_nil_r. repeat split; assumption.
    - exists (St_text_input (lit "Enter Twitter username:")
              :: St_button (lit "Fetch & Analyze Tweets") :: before').
      eexists. rewrite <- app_assoc.
      split; [reflexivity | ].
      unfold handler. rewrite bind_emit. cbn [emit log].
      repeat split; assumption. }
  destruct Hrun as (before & after & Hrun & Hrb & Hra & Hpb & Hpa).
  rewrite Hrun.
  unfold rendered, predicted_texts in *. rewrite !flat_map_app.
  rewrite Hrb, Hra, Hpb, Hpa, app_nil_r, app_nil_r. cbn [app].
  split; [exact Hr | ].
  destruct Hend as [(Hnil & _ & Hp)
                   | (failing & rest' & Hrest & Hf & _ & Hp)].
  - left. split; assumption.
  - right. exists failing, rest'. repeat split; assumption.
Qed.

End Fetching.

(* ================================================================== *)
(** ** Retries *)

Lemma nitter_calls_app (l1 l2 : list event) :
  nitter_calls (l1 ++ l2) = nitter_calls l1 ++ nitter_calls l2.
Proof. apply flat_map_app. Qed.

Lemma no_errors_or_warnings (l : list event) :
  Forall not_error_or_warning l ->
  displayed_errors l = [] /\ displayed_warnings l = [].
Proof.
  induction 1 as [ | e l He Hl [IHe IHw] ]; [split; reflexivity | ].
  destruct e; try contradiction; split; assumption.
Qed.

Section Retries.
Context `{RT : Runtime}.
Variable E : env.

(** One turn of the loop, lines 41-53. *)
Lemma attempt_run (instance : str) (o : objects) :
  exists l,
    try_except
      (scraper <- call_Nitter E (Some instance) false;;
       test <- call_get_tweets E scraper (lit "twitter") 1 1;;
       match tweets_entry test with
       | Some _ =>
           emit (St_success (lit "Connected to Nitter instance: "
                             ++ instance));;
           ret (Some scraper)
       | None => ret None
       end)
      (fun _ => ret None) o
    = Outcome
        (match try_instance E instance with
         | Answers scraper => Ok (Some scraper)
         | No_answer => Ok None
         | Leaves e => Raise e
         end) o l
    /\ nitter_calls l = [with_check instance]
    /\ get_tweets_calls l = (if constructed E instance then [probe] else [])
    /\ displayed_successes l
       = match try_instance E instance with
         | Answers _ => [lit "Connected to Nitter instance: " ++ instance]
         | _ => []
         end
    /\ Forall not_error_or_warning l
    /\ (forall e, try_instance E instance = Leaves e ->
                  is_Exception e = false).
Proof.
  unfold call_Nitter, call_get_tweets, try_instance, constructed.
  unfold try_except, bind, emit, lift, ret. cbv beta iota.
  destruct (Nitter E (Some instance) false) as [scraper | e]; cbv beta iota.
  - destruct (get_tweets E scraper (lit "twitter") 1 1) as [test | e];
      cbv beta iota.
    + destruct (tweets_entry test) as [tweets | ]; cbv beta iota;
        (eexists; split; [reflexivity | ]);
        (split; [reflexivity | ]); (split; [reflexivity | ]);
        (split; [reflexivity | ]);
        (split; [repeat constructor | discriminate]).
    + destruct (is_Exception e) eqn:Ex; cbv beta iota;
        (eexists; split; [reflexivity | ]);
        (split; [reflexivity | ]); (split; [reflexivity | ]);
        (split; [reflexivity | ]);
        (split; [repeat constructor | ]);
        [discriminate | intros e' [= <-]; exact Ex].
  - destruct (is_Exception e) eqn:Ex; cbv beta iota;
      (eexists; split; [reflexivity | ]);
      (split; [reflexivity | ]); (split; [reflexivity | ]);
      (split; [reflexivity | ]);
      (split; [repeat constructor | ]);
      [discriminate | intros e' [= <-]; exact Ex].
Qed.

(** The loop of lines 40-53: it goes down the list as long as the
    instances give no answer and ends at the first that answers, or that
    raises past the handler. *)
Lemma try_instances_run (instances : list str) (o : objects) :
  let r := try_instances E instances o in
  objs r = o
  /\ Forall not_error_or_warning (log r)
  /\ (Forall (no_answer E) instances
      /\ res r = Ok None
      /\ nitter_calls (log r) = map with_check instances
      /\ get_tweets_calls (log r)
         = map (fun _ => probe) (filter (constructed E) instances)
      /\ displayed_successes (log r) = []
      \/ exists before instance after,
           instances = before ++ instance :: after
           /\ Forall (no_answer E) before
           /\ nitter_calls (log r) = map with_check (before ++ [instance])
           /\ get_tweets_calls (log r)
              = map (fun _ => probe)
                  (filter (constructed E) (before ++ [instance]))
           /\ ((exists scraper,
                   try_instance E instance = Answers scraper
                   /\ res r = Ok (Some scraper)
                   /\ displayed_successes (log r)
                      = [lit "Connected to Nitter instance: " ++ instance])
               \/ exists e,
                    try_instance E instance = Leaves e
                    /\ is_Exception e = false
                    /\ res r = Raise e
                    /\ displayed_successes (log r) = [])).
Proof.
  cbv zeta. revert o. induction instances as [ | instance rest IH]; intros o.
  - split; [reflexivity | ]. split; [constructor | ].
    left. repeat split. constructor.
  - cbn [try_instances].
    destruct (attempt_run instance o)
      as (l & Hone & Hn & Hg & Hs & Hq & Hleaves).
    lazymatch goal with
    | |- context [bind (try_except ?b ?h) ?k] =>
        set (attempt := try_except b h) in *; set (next := k)
    end.
    destruct (try_instance E instance) as [scraper | | e] eqn:T.
    + rewrite (bind_ok attempt next o (a := Some scraper))
        by (rewrite Hone; reflexivity).
      rewrite Hone. unfold next. cbn [ret res objs log].
      rewrite app_nil_r.
      split; [reflexivity | ]. split; [exact Hq | ].
      right. exists [], instance, rest.
      split; [reflexivity | ]. split; [constructor | ].
      split; [exact Hn | ].
      split; [rewrite Hg; simpl; destruct (constructed E instance);
              reflexivity | ].
      left. exists scraper.
      split; [exact T | split; [reflexivity | exact Hs] ].
    + rewrite (bind_ok attempt next o (a := None))
        by (rewrite Hone; reflexivity).
      rewrite Hone. unfold next. cbn [res objs log].
      destruct (IH o) as (Hobjs & Hquiet & Hrest).
      split; [exact Hobjs | ].
      split; [apply Forall_app; split; assumption | ].
      unfold displayed_successes in *.
      rewrite nitter_calls_app, get_tweets_calls_app, flat_map_app.
      rewrite Hn, Hg, Hs.
      destruct Hrest as [(Hall & Hres & Hnc & Hgc & Hsc)
                        | (before & i & after & Hsplit & Hbefore & Hnc
                           & Hgc & Hend)].
      * left. split; [constructor; [exact T | exact Hall] | ].
        split; [exact Hres | ]. rewrite Hnc, Hgc, Hsc.
        split; [reflexivity | ].
        split; [simpl; destruct (constructed E instance); reflexivity | ].
        reflexivity.
      * right. exists (instance :: before), i, after.
        split; [rewrite Hsplit; reflexivity | ].
        split; [constructor; [exact T | exact Hbefore] | ].
        rewrite Hnc, Hgc.
        split; [reflexivity | ].
        split; [simpl; destruct (constructed E instance); reflexivity | ].
        exact Hend.
    + rewrite (bind_raise attempt next o (e := e))
        by (rewrite Hone; reflexivity).
      rewrite Hone. cbn [res objs log].
      split; [reflexivity | ]. split; [exact Hq | ].
      right. exists [], instance, rest.
      split; [reflexivity | ]. split; [constructor | ].
      split; [exact Hn | ].
      split; [rewrite Hg; simpl; destruct (constructed E instance);
              reflexivity | ].
      right. exists e. repeat split; auto.
Qed.

(** Lines 30-65 as a whole. *)
Lemma initialize_scraper_run (o : objects) :
  let r := initialize_scraper E o in
  objs r = o
  /\ (Forall (no_answer E) working_instances
      /\ nitter_calls (log r)
         = map with_check working_instances ++ [(None, true)]
      /\ get_tweets_calls (log r)
         = map (fun _ => probe)
             (filter (constructed E) working_instances)
      /\ displayed_successes (log r) = []
      /\ match Nitter E None true with
         | Ok scraper =>
             res r = Ok (Some scraper)
             /\ displayed_warnings (log r)
                = [lit "Using fallback mode with instance check disabled"]
             /\ displayed_errors (log r) = []
         | Raise e =>
             displayed_warnings (log r) = []
             /\ if is_Exception e then
                  res r = Ok None
                  /\ displayed_errors (log r)
                     = [lit "Scraper initialization failed: " ++ exn_str e]
                else res r = Raise e /\ displayed_errors (log r) = []
         end
      \/ exists before instance after,
           working_instances = before ++ instance :: after
           /\ Forall (no_answer E) before
           /\ nitter_calls (log r) = map with_check (before ++ [instance])
           /\ get_tweets_calls (log r)
              = map (fun _ => probe)
                  (filter (constructed E) (before ++ [instance]))
           /\ displayed_warnings (log r) = []
           /\ displayed_errors (log r) = []
           /\ ((exists scraper,
                   try_instance E instance = Answers scraper
                   /\ res r = Ok (Some scraper)
                   /\ displayed_successes (log r)
                      = [lit "Connected to Nitter instance: " ++ instance])
               \/ exists e,
                    try_instance E instance = Leaves e
                    /\ is_Exception e = false
                    /\ res r = Raise e
                    /\ displayed_successes (log r) = [])).
Proof.
  cbv zeta.
  destruct (try_instances_run working_instances o)
    as (Hobjs & Hquiet & Hloop).
  destruct (no_errors_or_warnings Hquiet) as [Herr Hwarn].
  unfold initialize_scraper.
  lazymatch goal with
  | |- context [try_except (bind ?m ?k) ?h] =>
      set (loop := m) in *; set (after := k); set (handler := h)
  end.
  assert (Hafter : forall o1,
             after None o1
             = match Nitter E None true with
               | Ok scraper =>
                   Outcome (Ok (Some scraper)) o1
                     [Call_Nitter None true;
                      St_warning
                        (lit "Using fallback mode with instance check disabled")]
               | Raise e => Outcome (Raise e) o1 [Call_Nitter None true]
               end).
  { intros o1. unfold after, call_Nitter. unfold bind, emit, lift, ret.
    cbv beta iota. destruct (Nitter E None true); reflexivity. }
  destruct Hloop as [(Hall & Hres & Hnc & Hgc & Hsc)
                    | (before & i & rest & Hsplit & Hbefore & Hnc & Hgc
                       & [(scraper & Ht & Hres & Hsc)
                         | (e & Ht & Hex & Hres & Hsc)])].
  - pose proof (bind_ok loop after o Hres) as Hbody.
    rewrite Hafter, Hobjs in Hbody.
    destruct (Nitter E None true) as [scraper | e];
      cbn [res objs log] in Hbody.
    + rewrite (try_except_ok _ handler o (a := Some scraper))
        by (rewrite Hbody; reflexivity).
      rewrite Hbody. cbn [res objs log].
      split; [reflexivity | ]. left.
      unfold displayed_successes, displayed_warnings, displayed_errors in *.
      rewrite nitter_calls_app, get_tweets_calls_app, !flat_map_app.
      rewrite Hnc, Hgc, Hsc, Herr, Hwarn, app_nil_r.
      repeat split. exact Hall.
    + destruct (is_Exception e) eqn:Ex.
      * rewrite (try_except_raise _ handler o (e := e))
          by first [exact Ex | rewrite Hbody; reflexivity].
        rewrite Hbody. cbn [res objs log]. unfold handler.
        rewrite bind_emit. cbn [ret res objs log].
        split; [reflexivity | ]. left.
        unfold displayed_successes, displayed_warnings,
          displayed_errors in *.
        rewrite <- app_assoc.
        rewrite nitter_calls_app, get_tweets_calls_app, !flat_map_app.
        rewrite Hnc, Hgc, Hsc, Herr, Hwarn, app_nil_r.
        repeat split. exact Hall.
      * rewrite (try_except_through _ handler o (e := e))
          by first [exact Ex | rewrite Hbody; reflexivity].
        rewrite Hbody. cbn [res objs log].
        split; [reflexivity | ]. left.
        unfold displayed_successes, displayed_warnings,
          displayed_errors in *.
        rewrite nitter_calls_app, get_tweets_calls_app, !flat_map_app.
        rewrite Hnc, Hgc, Hsc, Herr, Hwarn, app_nil_r.
        repeat split. exact Hall.
  - pose proof (bind_ok loop after o Hres) as Hbody.
    assert (Hsome : forall o1,
               after (Some scraper) o1 = Outcome (Ok (Some scraper)) o1 [])
      by reflexivity.
    rewrite Hsome in Hbody. cbn [res objs log] in Hbody.
    rewrite (try_except_ok _ handler o (a := Some scraper))
      by (rewrite Hbody; reflexivity).
    rewrite Hbody. cbn [res objs log]. rewrite app_nil_r.
    split; [exact Hobjs | ]. right. exists before, i, rest.
    repeat split; try assumption.
    left. exists scraper. repeat split; assumption.
  - pose proof (bind_raise loop after o Hres) as Hbody.
    rewrite (try_except_through _ handler o (e := e))
      by first [exact Hex | rewrite Hbody; reflexivity].
    rewrite Hbody. cbn [res objs log].
    split; [exact Hobjs | ]. right. exists before, i, rest.
    repeat split; try assumption.
    right. exists e. repeat split; assumption.
Qed.

(** C4, as the code has it: the retry logic of the program is the loop of
    [initialize_scraper]. It goes down its four instances in order and,
    for each, constructs a scraper once and, when this succeeded, probes
    it once with a retry count of 1; it goes on to the next instance
    exactly when the construction or the probe raised an [Exception] or
    the response has no ['tweets'] entry, and stops at the first instance
    that answers (or whose exception is not an [Exception]); it
    constructs one more scraper, with the instance check disabled,
    exactly when none of the four answered. The fetch of [main] is one
    call, with the retry count 3 handed to the library as it is, and no
    loop around it. *)
Theorem retries_are_the_instance_loop (o : objects) :
  let l := log (initialize_scraper E o) in
  (Forall (no_answer E) working_instances
   /\ nitter_calls l = map with_check working_instances ++ [(None, true)]
   /\ get_tweets_calls l
      = map (fun _ => probe) (filter (constructed E) working_instances)
   \/ exists before instance after,
        working_instances = before ++ instance :: after
        /\ Forall (no_answer E) before
        /\ ((exists scraper, try_instance E instance = Answers scraper)
            \/ exists e, try_instance E instance = Leaves e
                         /\ is_Exception e = false)
        /\ nitter_calls l = map with_check (before ++ [instance])
        /\ get_tweets_calls l
           = map (fun _ => probe)
               (filter (constructed E) (before ++ [instance])))
  /\ (forall scraper o',
         get_tweets_calls (log (tab2 E scraper o')) = []
         \/ get_tweets_calls (log (tab2 E scraper o'))
            = [(text_input E, 5%Z, 3%Z)]).
Proof.
  cbv zeta. split; [ | apply tab2_calls ].
  destruct (initialize_scraper_run o)
    as (_ & [(Hall & Hn & Hg & _)
            | (before & i & rest & Hsplit & Hbefore & Hn & Hg & _ & _
               & Hend)]).
  - left. repeat split; assumption.
  - right. exists before, i, rest.
    split; [exact Hsplit | ]. split; [exact Hbefore | ].
    split; [ | split; assumption ].
    destruct Hend as [(scraper & Ht & _) | (e & Ht & Hex & _)].
    + left. exists scraper. exact Ht.
    + right. exists e. split; assumption.
Qed.

End Retries.

(* ================================================================== *)
(** ** More on the cleaning *)

Lemma split_whitespace_spaces (text : str) :
  Forall (fun c => c = space) text -> Spec.split_whitespace text = [].
Proof.
  induction 1 as [ | c rest Hc Hrest IH]; [reflexivity | ].
  subst c. simpl. exact IH.
Qed.

Lemma remove_stopwords_In (stop_words words : list str) (w : str) :
  In w (Spec.remove_stopwords stop_words words)
  <-> In w words /\ ~ In w stop_words.
Proof.
  unfold Spec.remove_stopwords. rewrite filter_In.
  destruct (in_dec (list_eq_dec N.eq_dec) w stop_words) as [Hin | Hout].
  - split; [intros [_ H]; discriminate | intros [_ H]; contradiction].
  - split; intros [H _]; split; auto.
Qed.

Lemma remove_stopwords_ext (sw1 sw2 words : list str) :
  (forall w, In w words -> (In w sw1 <-> In w sw2)) ->
  Spec.remove_stopwords sw1 words = Spec.remove_stopwords sw2 words.
Proof.
  intros H. unfold Spec.remove_stopwords. apply filter_ext_in.
  intros w Hw. specialize (H w Hw).
  destruct (in_dec (list_eq_dec N.eq_dec) w sw1) as [H1 | H1];
    destruct (in_dec (list_eq_dec N.eq_dec) w sw2) as [H2 | H2];
    try reflexivity; exfalso; tauto.
Qed.

Lemma cleanable_word_spec (w : str) :
  is_word w -> Forall small_letter w -> cleanable_word w = true.
Proof.
  intros [Hne _] Hs. destruct w as [ | c w]; [contradiction | ].
  unfold cleanable_word. apply forallb_forall. intros x Hx.
  rewrite Forall_forall in Hs. apply Hs. exact Hx.
Qed.

Lemma cleaned_words (text : str) :
  let words := Spec.split_whitespace
                 (Spec.lowercase (Spec.replace_non_letters text)) in
  Forall is_word words /\ Forall (Forall small_letter) words.
Proof.
  cbv zeta. split.
  - apply split_whitespace_words.
  - apply split_small_words. apply lowercase_small_or_space.
    apply re_sub_letters_or_spaces.
Qed.

(** A character is below the capitals, a capital, between the two
    cases, a small letter or above. *)
Lemma char_class (c : char) :
  (c < 65 \/ (65 <= c <= 90) \/ (90 < c < 97) \/ (97 <= c <= 122)
   \/ 122 < c)%N.
Proof. lia. Qed.

Ltac decide_leb :=
  repeat (match goal with
          | |- context [(?a <=? ?b)%N] =>
              first
                [ replace (a <=? b)%N with true
                    by (symmetry; apply N.leb_le; lia)
                | replace (a <=? b)%N with false
                    by (symmetry; apply N.leb_gt; lia) ]
          end; cbn [andb orb]).

(** *** Lengths *)

Lemma length_spaced_split (text : str) :
  length (spaced (Spec.split_whitespace text))
  <= length text + (if Spec.at_word_end text then 0 else 1).
Proof.
  induction text as [ | c rest IH]; [simpl; lia | ].
  simpl Spec.split_whitespace. simpl Spec.at_word_end.
  destruct (isspace c).
  - simpl length. destruct (Spec.at_word_end rest); lia.
  - destruct (Spec.at_word_end rest) eqn:W.
    + change (spaced ([c] :: Spec.split_whitespace rest))
        with (space :: c :: spaced (Spec.split_whitespace rest)).
      simpl length. lia.
    + pose proof (split_whitespace_starts rest W) as Hne.
      destruct (Spec.split_whitespace rest) as [ | w ws]; [contradiction | ].
      change (spaced ((c :: w) :: ws)) with (space :: c :: w ++ spaced ws).
      change (spaced (w :: ws)) with (space :: w ++ spaced ws) in IH.
      simpl length in *. lia.
Qed.

Lemma length_join (words : list str) :
  length (Spec.join_single_spaces words) = pred (length (spaced words)).
Proof.
  destruct words as [ | w ws]; [reflexivity | ].
  change (spaced (w :: ws)) with (space :: w ++ spaced ws).
  reflexivity.
Qed.

Lemma length_spaced_filter (f : str -> bool) (words : list str) :
  length (spaced (filter f words)) <= length (spaced words).
Proof.
  induction words as [ | w ws IH]; [simpl; lia | ].
  change (spaced (w :: ws)) with (space :: w ++ spaced ws).
  simpl filter. destruct (f w).
  - change (spaced (w :: filter f ws))
      with (space :: w ++ spaced (filter f ws)).
    simpl length. rewrite !length_app. lia.
  - simpl length. rewrite length_app. lia.
Qed.

Section MoreCleaning.
Context `{RT : Runtime}.

(** X1: what a cleaned text is made of. It is its own words joined by
    single spaces; each word is non-empty, made of small ASCII letters
    only, and is not in the stopword list; so the text has no character
    other than small letters and spaces. *)
Theorem cleaned_text_words (stop_words : list str) (text : str) :
  let cleaned := cleaned_text stop_words text in
  str_join (lit " ") (str_split cleaned) = cleaned
  /\ Forall (fun w => w <> [] /\ Forall small_letter w /\ ~ In w stop_words)
       (str_split cleaned)
  /\ Forall small_or_space cleaned.
Proof.
  cbv zeta. rewrite cleaned_text_spec, str_split_spec, str_join_spec.
  change (Spec.clean stop_words text)
    with (Spec.join_single_spaces (kept_words stop_words text)).
  destruct (kept_words_small stop_words text) as [Hsmall Hwords].
  rewrite (split_join Hwords).
  split; [reflexivity | ]. split; [ | apply join_small_or_space; exact Hsmall ].
  rewrite Forall_forall in *. intros w Hw.
  split; [apply (Hwords w Hw) | ]. split; [apply (Hsmall w Hw) | ].
  unfold kept_words in Hw. apply remove_stopwords_In in Hw. apply Hw.
Qed.

(** X2: a text without any ASCII letter (digits, punctuation, emoji,
    letters of other alphabets, or nothing at all) is cleaned to the
    empty string, whatever the stopword list. *)
Theorem cleaned_text_without_letters (stop_words : list str) (text : str) :
  Forall (fun c => is_ascii_letter c = false) text ->
  cleaned_text stop_words text = [].
Proof.
  intros H. rewrite cleaned_text_spec. unfold Spec.clean.
  rewrite split_whitespace_spaces; [reflexivity | ].
  unfold Spec.lowercase, Spec.replace_non_letters. rewrite map_map.
  induction H as [ | c rest Hc Hrest IH]; simpl; constructor.
  - rewrite Hc. reflexivity.
  - exact IH.
Qed.

(** X3: the case of the letters does not matter: a text, the text in
    small letters and the text in capital letters are cleaned to the
    same string, and so classified alike. *)
Theorem cleaned_text_ignores_case (stop_words : list str) (text : str)
    (model : pyopt Model) (vectorizer : pyopt Vectorizer) :
  cleaned_text stop_words (map ascii_lower text)
  = cleaned_text stop_words text
  /\ cleaned_text stop_words (map ascii_upper text)
     = cleaned_text stop_words text
  /\ predict_sentiment (map ascii_upper text) model vectorizer stop_words
     = predict_sentiment text model vectorizer stop_words.
Proof.
  assert (L : forall f : char -> char,
             (forall c, ascii_lower (if is_ascii_letter (f c) then f c
                                     else space)
                        = ascii_lower (if is_ascii_letter c then c
                                       else space)) ->
             cleaned_text stop_words (map f text)
             = cleaned_text stop_words text).
  { intros f Hf. rewrite !cleaned_text_spec. unfold Spec.clean.
    do 3 f_equal.
    unfold Spec.lowercase, Spec.replace_non_letters.
    rewrite !map_map. apply map_ext. exact Hf. }
  assert (Hlow : forall c,
             ascii_lower (if is_ascii_letter (ascii_lower c)
                          then ascii_lower c else space)
             = ascii_lower (if is_ascii_letter c then c else space)).
  { intros c.
    unfold ascii_lower, is_ascii_letter, is_lower_ascii, is_upper_ascii,
      space.
    destruct (char_class c) as [H | [H | [H | [H | H] ] ] ];
      decide_leb; reflexivity. }
  assert (Hup : forall c,
             ascii_lower (if is_ascii_letter (ascii_upper c)
                          then ascii_upper c else space)
             = ascii_lower (if is_ascii_letter c then c else space)).
  { intros c.
    unfold ascii_lower, ascii_upper, is_ascii_letter, is_lower_ascii,
      is_upper_ascii, space.
    destruct (char_class c) as [H | [H | [H | [H | H] ] ] ];
      decide_leb; try reflexivity; lia. }
  split; [apply L; exact Hlow | ].
  split; [apply L; exact Hup | ].
  rewrite !predict_sentiment_cleaned. rewrite (L ascii_upper Hup).
  reflexivity.
Qed.

(** X4: only the ASCII letters of a text count. Two texts with the same
    letters at the same places are cleaned to the same string, whatever
    stands at the other places. *)
Theorem cleaned_text_ignores_non_letters (stop_words : list str)
    (a b : str) :
  same_letters a b ->
  cleaned_text stop_words a = cleaned_text stop_words b.
Proof.
  intros H. rewrite !cleaned_text_spec. unfold Spec.clean. do 4 f_equal.
  unfold Spec.replace_non_letters.
  induction H as [ | x y a b Hxy Hab IH]; [reflexivity | ].
  simpl. rewrite IH. f_equal.
  destruct (is_ascii_letter x) eqn:Lx.
  - subst y. rewrite Lx. reflexivity.
  - rewrite Hxy. reflexivity.
Qed.

(** X5: an entry of the stopword list that is empty or has a character
    other than a small ASCII letter (a capital, an apostrophe) never
    removes a word: the cleaning is the same without these entries. *)
Theorem stopwords_that_never_match (stop_words : list str) (text : str) :
  cleaned_text (filter cleanable_word stop_words) text
  = cleaned_text stop_words text.
Proof.
  rewrite !cleaned_text_spec. unfold Spec.clean. f_equal.
  apply remove_stopwords_ext. intros w Hw.
  destruct (cleaned_words text) as [Hwords Hsmall]. cbv zeta in *.
  rewrite Forall_forall in Hwords, Hsmall.
  rewrite filter_In. split; [tauto | ].
  intros Hin. split; [exact Hin | ].
  apply cleanable_word_spec; auto.
Qed.

(** X6: the stopword list counts as a set: two lists with the same
    entries, in any order and with any repetitions, clean alike. *)
Theorem stopwords_as_a_set (sw1 sw2 : list str) (text : str) :
  (forall w, In w sw1 <-> In w sw2) ->
  cleaned_text sw1 text = cleaned_text sw2 text.
Proof.
  intros H. rewrite !cleaned_text_spec. unfold Spec.clean. f_equal.
  apply remove_stopwords_ext. intros w _. apply H.
Qed.

(** X7: cleaning never lengthens a text. *)
Theorem cleaned_text_length (stop_words : list str) (text : str) :
  length (cleaned_text stop_words text) <= length text.
Proof.
  rewrite cleaned_text_spec. unfold Spec.clean, Spec.remove_stopwords.
  rewrite length_join.
  set (s := Spec.lowercase (Spec.replace_non_letters text)).
  assert (Hs : length s = length text).
  { unfold s, Spec.lowercase, Spec.replace_non_letters.
    rewrite !length_map. reflexivity. }
  match goal with
  | |- Nat.pred (length (spaced (filter ?f ?l))) <= _ =>
      pose proof (length_spaced_filter f l) as Hf;
      rewrite <- (Nat.sub_1_r (length (spaced (filter f l))))
  end.
  pose proof (length_spaced_split s) as Hl.
  unfold str, char in *.
  destruct (Spec.at_word_end s); lia.
Qed.

End MoreCleaning.

(* ================================================================== *)
(** ** More on the loaders and the scraper *)

Section MoreLoading.
Context `{RT : Runtime}.
Variable E : env.

(** X8: the loader reads the two files in order and stops at the first
    failure: the vectorizer file is opened only once the model has been
    unpickled, so a failure on the model file leaves it untouched. *)
Theorem load_model_and_vectorizer_opens (o : objects) :
  opened (log (load_model_and_vectorizer E o))
  = match open_model E, pickle_load_model E with
    | Ok _, Ok _ => [model_path; vectorizer_path]
    | _, _ => [model_path]
    end.
Proof.
  unfold load_model_and_vectorizer, try_except, bind, lift, emit, ret.
  destruct (open_model E) as [[] | e1];
    [ | destruct (is_Exception e1); reflexivity ].
  destruct (pickle_load_model E) as [model | e2];
    [ | destruct (is_Exception e2); reflexivity ].
  destruct (open_vectorizer E) as [[] | e3];
    [ | destruct (is_Exception e3); reflexivity ].
  destruct (pickle_load_vectorizer E) as [vectorizer | e4];
    [ | destruct (is_Exception e4) ]; reflexivity.
Qed.

(** X9: [initialize_scraper] leaves the loaded objects alone, raises
    nothing but an exception that is not an [Exception], and what it
    returns is: the scraper of the first instance of its list, in order,
    that can be constructed and whose probe comes back with a ['tweets']
    entry, with a message that names this instance; when none of the
    instances answers, a scraper constructed with the instance check
    disabled, with a warning; and [None], with the error displayed, when
    this last construction raises an [Exception]. *)
Theorem initialize_scraper_result (o : objects) :
  let r := initialize_scraper E o in
  objs r = o
  /\ (forall e, res r = Raise e -> is_Exception e = false)
  /\ (Forall (no_answer E) working_instances
      /\ displayed_successes (log r) = []
      /\ match Nitter E None true with
         | Ok scraper =>
             res r = Ok (Some scraper)
             /\ displayed_warnings (log r)
                = [lit "Using fallback mode with instance check disabled"]
             /\ displayed_errors (log r) = []
         | Raise e =>
             displayed_warnings (log r) = []
             /\ if is_Exception e then
                  res r = Ok None
                  /\ displayed_errors (log r)
                     = [lit "Scraper initialization failed: " ++ exn_str e]
                else res r = Raise e /\ displayed_errors (log r) = []
         end
      \/ exists before instance after,
           working_instances = before ++ instance :: after
           /\ Forall (no_answer E) before
           /\ displayed_warnings (log r) = []
           /\ displayed_errors (log r) = []
           /\ ((exists scraper,
                   try_instance E instance = Answers scraper
                   /\ res r = Ok (Some scraper)
                   /\ displayed_successes (log r)
                      = [lit "Connected to Nitter instance: " ++ instance])
               \/ exists e,
                    try_instance E instance = Leaves e
                    /\ res r = Raise e
                    /\ displayed_successes (log r) = [])).
Proof.
  cbv zeta.
  destruct (initialize_scraper_run E o)
    as (Hobjs & [(Hall & _ & _ & Hs & Hend)
                | (before & i & rest & Hsplit & Hbefore & _ & _ & Hw & He
                   & Hend)]).
  - split; [exact Hobjs | ]. split.
    + intros e Hr. destruct (Nitter E None true) as [scraper | e'].
      * destruct Hend as (Hres & _). rewrite Hres in Hr. discriminate.
      * destruct Hend as (_ & Hend). destruct (is_Exception e') eqn:Ex.
        -- destruct Hend as (Hres & _). rewrite Hres in Hr. discriminate.
        -- destruct Hend as (Hres & _). rewrite Hres in Hr.
           injection Hr as <-. exact Ex.
    + left. split; [exact Hall | ]. split; [exact Hs | exact Hend].
  - split; [exact Hobjs | ]. split.
    + intros e Hr.
      destruct Hend as [(scraper & _ & Hres & _) | (e' & _ & Hex & Hres & _)];
        rewrite Hres in Hr; [discriminate | ].
      injection Hr as <-. exact Hex.
    + right. exists before, i, rest.
      split; [exact Hsplit | ]. split; [exact Hbefore | ].
      split; [exact Hw | ]. split; [exact He | ].
      destruct Hend as [(scraper & Ht & Hres & Hs)
                       | (e' & Ht & _ & Hres & Hs)].
      * left. exists scraper. repeat split; assumption.
      * right. exists e'. repeat split; assumption.
Qed.

End MoreLoading.

(* ================================================================== *)
(** ** More on the two tabs and on [main] *)



Lemma rendered_labelled (l : list event) :
  Forall labelled l ->
  Forall (fun card => exists text s,
              card = create_card text s
              /\ (s = lit "Positive" \/ s = lit "Negative"))
    (rendered l).
Proof.
  induction 1 as [ | e l He Hl IH]; [constructor | ].
  destruct e; try exact IH.
  destruct unsafe_allow_html; [ | exact IH ].
  simpl. constructor; [exact He | exact IH].
Qed.

Section MoreTabs.
Context `{RT : Runtime}.

Lemma call_predict_sentiment_run (text : str) (o : objects) :
  exists r o',
    call_predict_sentiment text o
    = Outcome r o'
        [Call_predict_sentiment text (is_None (model_obj o))
           (is_None (vectorizer_obj o))]
    /\ (forall s, r = Ok s -> s = lit "Positive" \/ s = lit "Negative")
    /\ (model_obj o = None ->
        r = Raise (AttributeError_None "predict") /\ o' = o).
Proof.
  unfold call_predict_sentiment.
  pose proof (vectorize_and_classify_labels
                (cleaned_text (stop_words_obj o) text)
                (model_obj o) (vectorizer_obj o) (stop_words_obj o)) as H.
  rewrite predict_sentiment_cleaned.
  destruct (vectorize_and_classify _ _ _ _) as [r o'] eqn:V.
  exists r, o'. split; [reflexivity | ]. split.
  - intros s ->. apply H. reflexivity.
  - intros Hm. rewrite Hm in V. simpl in V. injection V as <- <-.
    split; [reflexivity | ]. destruct o; simpl in *. subst. reflexivity.
Qed.

(** One tweet: its text is looked up, classified and rendered, and the
    first of the three that fails ends it. *)
Lemma analyze_tweet_run (tweet : tweet) (o : objects) :
  exists r o' l,
    analyze_tweet tweet o = Outcome r o' l
    /\ Forall labelled l
    /\ match tw_text tweet with
       | None => r = Raise (KeyError "text") /\ l = []
       | Some text =>
           predicted_texts l = [text]
           /\ match r with
              | Ok _ => length (rendered l) = 1
              | Raise _ => rendered l = []
              end
       end.
Proof.
  unfold analyze_tweet. destruct (tw_text tweet) as [text | ].
  - rewrite bind_lift_ok.
    destruct (call_predict_sentiment_run text o) as (r & o' & Hcall & Hs & _).
    destruct r as [s | e].
    + rewrite (bind_ok _ _ o (a := s)) by (rewrite Hcall; reflexivity).
      rewrite Hcall. cbn [emit res objs log].
      eexists. eexists. eexists. split; [reflexivity | ].
      split; [ | split; reflexivity ].
      constructor; [exact I | ]. constructor; [ | constructor ].
      exists text, s. split; [reflexivity | apply Hs; reflexivity].
    + rewrite (bind_raise _ _ o (e := e)) by (rewrite Hcall; reflexivity).
      rewrite Hcall. cbn [res objs log].
      eexists. eexists. eexists. split; [reflexivity | ].
      split; [ | split; reflexivity ].
      constructor; [exact I | constructor].
  - rewrite bind_lift_raise.
    eexists. eexists. eexists. split; [reflexivity | ].
    split; [constructor | split; reflexivity].
Qed.


Variable E : env.

Lemma cache_miss {A : Type} (f : fn) (body : M A) (o : objects) :
  cache_resource f None body o
  = match body o with
    | Outcome (Ok v) o1 l => Outcome (Ok v) o1 (Call f :: l ++ [Return f])
    | Outcome (Raise e) o1 l => Outcome (Raise e) o1 (Call f :: l)
    end.
Proof.
  unfold cache_resource, bind, emit, ret.
  destruct (body o) as [[v | e] o1 l]; reflexivity.
Qed.



(** X12: the second tab calls the scraping service exactly when there is
    a scraper, the button was pressed and the username is not blank; a
    blank username is answered with a warning and no call. *)
Theorem tab2_fetches_exactly_when (scraper : pyopt Scraper) (o : objects) :
  get_tweets_calls (log (tab2 E scraper o))
  = (if negb (is_None scraper) && button_fetch E
        && str_truthy (str_strip (text_input E))
     then [(text_input E, 5%Z, 3%Z)] else [])
  /\ (scraper <> None -> button_fetch E = true ->
      str_truthy (str_strip (text_input E)) = false ->
      displayed_warnings (log (tab2 E scraper o))
      = [lit "Please enter a username"]
      /\ predicted_texts (log (tab2 E scraper o)) = []).
Proof.
  unfold tab2. destruct scraper as [scraper | ].
  - rewrite bind_emit, bind_emit. cbn [log is_None negb andb].
    change (get_tweets_calls (?a :: ?b :: ?l)) with (get_tweets_calls l).
    change (displayed_warnings (?a :: ?b :: ?l)) with (displayed_warnings l).
    change (predicted_texts (?a :: ?b :: ?l)) with (predicted_texts l).
    destruct (button_fetch E).
    + destruct (str_truthy (str_strip (text_input E))); cbn [negb].
      * split; [apply fetch_and_analyze_calls | discriminate].
      * split; [reflexivity | intros _ _ _; split; reflexivity].
    + split; [reflexivity | discriminate].
  - split; [reflexivity | intros H; contradiction].
Qed.

(** X13: the first tab classifies the text exactly when the button was
    pressed and the text is not all white space; a text that is empty or
    all white space is answered with a warning, and nothing is
    classified or rendered. *)
Theorem tab1_predicts_exactly_when (o : objects) :
  predicted_texts (log (tab1 E o))
  = (if button_analyze E && str_truthy (str_strip (text_area E))
     then [text_area E] else [])
  /\ (button_analyze E = true ->
      str_truthy (str_strip (text_area E)) = false ->
      res (tab1 E o) = Ok tt
      /\ displayed_warnings (log (tab1 E o))
         = [lit "Please enter some text to analyze"]
      /\ rendered (log (tab1 E o)) = []).
Proof.
  unfold tab1. rewrite bind_emit, bind_emit. cbn [log res].
  change (predicted_texts (?a :: ?b :: ?l)) with (predicted_texts l).
  change (displayed_warnings (?a :: ?b :: ?l)) with (displayed_warnings l).
  change (rendered (?a :: ?b :: ?l)) with (rendered l).
  destruct (button_analyze E).
  - destruct (str_truthy (str_strip (text_area E))); cbn [andb].
    + split; [ | discriminate ].
      destruct (call_predict_sentiment_run (text_area E) o)
        as (r & o' & Hcall & _).
      destruct r as [s | e].
      * rewrite (bind_ok _ _ o (a := s)) by (rewrite Hcall; reflexivity).
        rewrite Hcall. reflexivity.
      * rewrite (bind_raise _ _ o (e := e)) by (rewrite Hcall; reflexivity).
        rewrite Hcall. reflexivity.
    + split; [reflexivity | intros _ _; repeat split].
  - split; [reflexivity | discriminate].
Qed.


(** Every card of the two tabs wears one of the two labels. *)
Lemma tabs_labelled (scraper : pyopt Scraper) :
  logs_only labelled (tab1 E) /\ logs_only labelled (tab2 E scraper).
Proof.
  assert (Hloop : forall tweets,
             logs_only labelled (for_each tweets analyze_tweet)).
  { intros tweets. apply logs_only_for_each. intros tweet o.
    destruct (analyze_tweet_run tweet o) as (r & o' & l & -> & Hl & _).
    exact Hl. }
  split.
  - intros o. unfold tab1. rewrite bind_emit, bind_emit. cbn [log].
    do 2 (constructor; [exact I | ]).
    destruct (button_analyze E); [ | constructor ].
    destruct (str_truthy _);
      [ | constructor; [exact I | constructor] ].
    destruct (call_predict_sentiment_run (text_area E) o)
      as (r & o' & Hcall & Hs & _).
    destruct r as [s | e].
    + rewrite (bind_ok _ _ o (a := s)) by (rewrite Hcall; reflexivity).
      rewrite Hcall. cbn [emit res objs log app].
      constructor; [exact I | ]. constructor; [ | constructor ].
      exists (text_area E), s. split; [reflexivity | apply Hs; reflexivity].
    + rewrite (bind_raise _ _ o (e := e)) by (rewrite Hcall; reflexivity).
      rewrite Hcall. cbn [log]. constructor; [exact I | constructor].
  - unfold tab2, fetch_and_analyze, call_get_tweets.
    destruct scraper as [scraper | ].
    + apply logs_only_bind; [apply logs_only_emit; exact I | intros _].
      apply logs_only_bind; [apply logs_only_emit; exact I | intros _].
      destruct (button_fetch E); [ | apply logs_only_ret ].
      destruct (negb _); [apply logs_only_emit; exact I | ].
      apply logs_only_try_except.
      * apply logs_only_bind; [apply logs_only_emit; exact I | intros _].
        apply logs_only_bind.
        -- apply logs_only_bind; [apply logs_only_emit; exact I | intros _].
           apply logs_only_lift.
        -- intros td. destruct (tweets_entry td) as [[ | t l] | ].
           ++ apply logs_only_emit; exact I.
           ++ apply logs_only_bind;
                [apply logs_only_emit; exact I | intros _; apply Hloop].
           ++ apply logs_only_emit; exact I.
      * intros e. apply logs_only_bind;
          [apply logs_only_emit; exact I | intros _].
        apply logs_only_emit; exact I.
    + apply logs_only_bind; [apply logs_only_emit; exact I | intros _].
      apply logs_only_emit; exact I.
Qed.

(** X15: every card that a run of [main] puts on the page was made by
    [create_card] with one of the two labels, Positive or Negative: no
    card with another label, and so none in a colour that does not fit
    its label, is ever rendered. *)
Theorem main_cards_labelled (o : objects) :
  Forall (fun card => exists text s,
              card = create_card text s
              /\ (s = lit "Positive" \/ s = lit "Negative")
              /\ background_color card
                 = Some (if str_eqb s (lit "Positive") then lit "#4CAF50"
                         else lit "#F44336"))
    (rendered (log (main E o))).
Proof.
  assert (H : Forall labelled (log (main E o))).
  { unfold main.
    apply logs_only_bind.
    - intros o1. eapply Forall_impl; [ | apply main_setup_events ].
      intros e [_ Hc]. destruct e; try exact I.
      destruct unsafe_allow_html; [contradiction | exact I].
    - intros scraper.
      apply logs_only_bind; [apply logs_only_emit; exact I | intros _].
      apply logs_only_bind; [apply tabs_labelled; exact scraper | intros _].
      apply tabs_labelled. }
  eapply Forall_impl; [ | apply rendered_labelled; exact H ].
  intros card (text & s & -> & Hs). exists text, s.
  split; [reflexivity | ]. split; [exact Hs | ].
  apply background_color_card.
Qed.

(** X16: a failure of the listing of the directory or of the loading of
    the stopwords is not caught: it leaves [main] before the model files
    are opened, before any scraper is constructed and before anything
    is classified. *)
Theorem main_aborts_before_loading (o : objects) (e : exn) :
  os_listdir E = Raise e
  \/ (exists files, os_listdir E = Ok files)
     /\ cached_stopwords E = None
     /\ (nltk_download E = Raise e
         \/ (exists b, nltk_download E = Ok b)
            /\ stopwords_words E = Raise e) ->
  let r := main E o in
  res r = Raise e
  /\ objs r = o
  /\ opened (log r) = []
  /\ nitter_calls (log r) = []
  /\ predicted_texts (log r) = [].
Proof.
  intros H. cbv zeta.
  assert (Hsetup : exists l,
             main_setup E o = Outcome (Raise e) o l
             /\ opened l = [] /\ nitter_calls l = []
             /\ predicted_texts l = []).
  { unfold main_setup.
    destruct H as [Hdir | ((files & Hdir) & Hcache & Hsw)]; rewrite Hdir.
    - rewrite bind_lift_raise. eexists. split; [reflexivity | ].
      repeat split.
    - rewrite bind_lift_ok, !bind_emit. rewrite Hcache.
      assert (Hload : load_stopwords E o = Outcome (Raise e) o []).
      { unfold load_stopwords.
        destruct Hsw as [Hd | ((b & Hd) & Hw)]; rewrite Hd.
        - apply bind_lift_raise.
        - rewrite bind_lift_ok, Hw. reflexivity. }
      rewrite (bind_raise _ _ o (e := e))
        by (rewrite cache_miss, Hload; reflexivity).
      rewrite cache_miss, Hload. cbn [res objs log].
      eexists. split; [reflexivity | ]. repeat split. }
  destruct Hsetup as (l & Hsetup & Ho & Hn & Hp).
  unfold main.
  rewrite (bind_raise _ _ o (e := e)) by (rewrite Hsetup; reflexivity).
  rewrite Hsetup. cbn [res objs log]. repeat split; assumption.
Qed.

End MoreTabs.

(* ================================================================== *)
(** ** The theorems on the runs of the examples *)

Section Runs.
#[local] Existing Instance Example.runtime.

(** C2 at the text [This is GOOD!] with the stopword [is]: the cleaned
    text is [this good], the model answers 1 and the sentiment is
    Positive. *)
Lemma predict_sentiment_positive_or_negative_witness :
  transform (tt : @Vectorizer Example.runtime)
    [cleaned_text [lit "is"] (lit "This is GOOD!")]
  = (Ok ([lit "this good"] : @matrix Example.runtime), tt)
  /\ predict (tt : @Model Example.runtime) [lit "this good"]
     = (Ok [1%Z], tt)
  /\ exists s : str,
       fst (predict_sentiment (lit "This is GOOD!")
              (Some (tt : @Model Example.runtime))
              (Some (tt : @Vectorizer Example.runtime)) [lit "is"])
       = Ok s
       /\ (s = lit "Positive" \/ s = lit "Negative")
       /\ (1%Z = 0%Z -> s = lit "Negative")
       /\ (1%Z <> 0%Z -> s = lit "Positive")
       /\ lit "Positive" <> lit "Negative"
       /\ (forall model vectorizer s',
              fst (predict_sentiment (lit "This is GOOD!") model vectorizer
                     [lit "is"]) = Ok s' ->
              s' = lit "Positive" \/ s' = lit "Negative").
Proof.
  split; [vm_compute; reflexivity | ].
  split; [vm_compute; reflexivity | ].
  apply (@predict_sentiment_positive_or_negative Example.runtime
           (lit "This is GOOD!") tt tt [lit "is"] [lit "this good"] tt
           1%Z [] tt);
    vm_compute; reflexivity.
Defined.

(** C6 at the example runtime, whose two methods return their receiver
    as it was, and the run in which everything works. *)
Lemma artifacts_read_only_after_load_witness :
  (forall (m : @Model Example.runtime) (X : @matrix Example.runtime),
      snd (predict m X) = m)
  /\ (forall (v : @Vectorizer Example.runtime) (docs : list str),
         snd (transform v docs) = v)
  /\ objs (main Example.run_ok unbound)
     = objs (main_setup Example.run_ok unbound).
Proof.
  split; [intros m X; reflexivity | ].
  split; [intros v docs; reflexivity | ].
  apply (@artifacts_read_only_after_load Example.runtime
           (fun m X => eq_refl) (fun v docs => eq_refl)).
Defined.

(** C9 at the run whose model file is missing. *)
Lemma main_predicts_without_model_witness :
  main_setup Example.run_no_model unbound
  = Outcome (Ok (Some Example.nitter_net))
      (Objects None None [lit "the"; lit "is"; lit "a"; lit "what"])
      Example.no_model_setup_log
  /\ button_analyze Example.run_no_model = true
  /\ str_truthy (str_strip (text_area Example.run_no_model)) = true
  /\ res (main Example.run_no_model unbound)
     = Raise (AttributeError_None "predict")
  /\ rendered (log (main Example.run_no_model unbound)) = [].
Proof.
  split; [vm_compute; reflexivity | ].
  split; [reflexivity | ].
  split; [vm_compute; reflexivity | ].
  pose proof (@main_predicts_without_model Example.runtime
                Example.run_no_model (Some Example.nitter_net)
                [lit "the"; lit "is"; lit "a"; lit "what"]
                Example.no_model_setup_log) as H.
  cbv zeta in H.
  destruct H as (Hres & _ & Hrendered & _);
    [vm_compute; reflexivity | reflexivity | vm_compute; reflexivity | ].
  split; assumption.
Defined.

(** C7, as the code has it, at the run in which everything works: two
    tweets come back, and both are classified and rendered. *)
Lemma fetch_requests_five_and_analyzes_in_order_witness :
  button_fetch Example.run_ok = true
  /\ str_truthy (str_strip (text_input Example.run_ok)) = true
  /\ get_tweets Example.run_ok Example.nitter_net
       (text_input Example.run_ok) 5 3 = Ok Example.response
  /\ tweets_entry Example.response = Some Example.two_tweets
  /\ (let r := tab2 Example.run_ok (Some Example.nitter_net)
                 Example.loaded_objects in
      get_tweets_calls (log r) = [(text_input Example.run_ok, 5%Z, 3%Z)]
      /\ (exists classified rest pairs o1,
             Example.two_tweets = classified ++ rest
             /\ analyzed Example.loaded_objects classified pairs o1
             /\ rendered (log r) = map card_of_pair pairs
             /\ (rest = [] /\ predicted_texts (log r) = map fst pairs
                 \/ exists failing rest',
                      rest = failing :: rest'
                      /\ fails o1 failing
                      /\ predicted_texts (log r)
                         = map fst pairs ++ attempted_text failing))
      /\ (forall scraper' o',
             Forall (fun call => call = (text_input Example.run_ok, 5%Z, 3%Z))
               (get_tweets_calls (log (tab2 Example.run_ok scraper' o'))))).
Proof.
  do 4 (split; [reflexivity | ]).
  apply (@fetch_requests_five_and_analyzes_in_order Example.runtime
           Example.run_ok Example.nitter_net Example.loaded_objects
           Example.response Example.two_tweets
           eq_refl eq_refl eq_refl eq_refl).
Defined.

(** C7 is not what the code does: in the run whose model file is
    missing, two tweets come back, the first is handed to
    [predict_sentiment], which raises, and no tweet is rendered. *)
Lemma fetch_without_model_renders_nothing :
  tweets_entry Example.response = Some Example.two_tweets
  /\ get_tweets_calls
       (log (tab2 MoreExamples.run_fetch_without_model
               (Some Example.nitter_net)
               MoreExamples.objects_without_model))
     = [(lit "nasa", 5%Z, 3%Z)]
  /\ predicted_texts
       (log (main MoreExamples.run_fetch_without_model unbound))
     = [lit "What a GOOD day!"]
  /\ rendered (log (main MoreExamples.run_fetch_without_model unbound))
     = []
  /\ ~ all_classified_and_rendered Example.two_tweets
         (log (main MoreExamples.run_fetch_without_model unbound)).
Proof.
  split; [reflexivity | ].
  split; [vm_compute; reflexivity | ].
  split; [vm_compute; reflexivity | ].
  split; [vm_compute; reflexivity | ].
  intros [_ H]. vm_compute in H. discriminate.
Qed.

(** C3 is not what the code does: when the unpickling of the model
    raises [SystemExit], which is not an [Exception], the loader does not
    catch it: the exception leaves it and no message is displayed. *)
Lemma load_model_and_vectorizer_lets_system_exit_through :
  res (load_model_and_vectorizer MoreExamples.run_pickle_exits unbound)
  = Raise MoreExamples.system_exit
  /\ displayed_errors
       (log (load_model_and_vectorizer MoreExamples.run_pickle_exits
               unbound)) = []
  /\ ~ catches_every_exception MoreExamples.run_pickle_exits.
Proof.
  split; [vm_compute; reflexivity | ].
  split; [vm_compute; reflexivity | ].
  intros H. destruct (H unbound) as [pair Hpair].
  vm_compute in Hpair. discriminate.
Qed.

(** C4 is not what the code does: in the run whose first instance is
    down the scraper set-up goes on to a second endpoint, so the program
    does loop over alternative endpoints. *)
Lemma initialize_scraper_tries_second_endpoint :
  nitter_calls (log (initialize_scraper Example.run_first_down unbound))
  = [ (Some (lit "https://nitter.net"), false);
      (Some (lit "https://nitter.it"), false) ]
  /\ get_tweets_calls
       (log (initialize_scraper Example.run_first_down unbound))
     = [probe; probe]
  /\ ~ single_attempt (log (main Example.run_first_down unbound)).
Proof.
  split; [vm_compute; reflexivity | ].
  split; [vm_compute; reflexivity | ].
  unfold single_attempt.
  replace (length (nitter_calls (log (main Example.run_first_down unbound))))
    with 2 by (vm_compute; reflexivity).
  lia.
Qed.

End Runs.

(* ================================================================== *)
(** ** The further theorems on runs *)

Section MoreRuns.
#[local] Existing Instance Example.runtime.

(** X2 at a text of digits, punctuation and an emoji. *)
Lemma cleaned_text_without_letters_witness :
  Forall (fun c => is_ascii_letter c = false) MoreExamples.no_letters
  /\ cleaned_text [lit "the"] MoreExamples.no_letters = [].
Proof.
  assert (H : Forall (fun c => is_ascii_letter c = false)
                MoreExamples.no_letters).
  { apply Forall_forall. intros c Hc. vm_compute in Hc.
    repeat (destruct Hc as [<- | Hc]; [reflexivity | ]). contradiction. }
  split; [exact H | ].
  apply (@cleaned_text_without_letters Example.runtime [lit "the"]
           MoreExamples.no_letters H).
Defined.

(** X4 at a text and the same text with its marks and digit replaced by
    spaces. *)
Lemma cleaned_text_ignores_non_letters_witness :
  same_letters MoreExamples.with_marks MoreExamples.without_marks
  /\ cleaned_text [lit "s"] MoreExamples.with_marks
     = cleaned_text [lit "s"] MoreExamples.without_marks.
Proof.
  assert (H : same_letters MoreExamples.with_marks
                MoreExamples.without_marks).
  { unfold same_letters. vm_compute.
    repeat (constructor; [reflexivity | ]). constructor. }
  split; [exact H | ].
  apply (@cleaned_text_ignores_non_letters Example.runtime [lit "s"]
           MoreExamples.with_marks MoreExamples.without_marks H).
Defined.

(** X6 at a list and the same entries in another order, one repeated. *)
Lemma stopwords_as_a_set_witness :
  (forall w, In w [lit "the"; lit "is"] <-> In w [lit "is"; lit "the"; lit "is"])
  /\ cleaned_text [lit "the"; lit "is"] (lit "The sky is blue")
     = cleaned_text [lit "is"; lit "the"; lit "is"] (lit "The sky is blue").
Proof.
  assert (H : forall w, In w [lit "the"; lit "is"]
                        <-> In w [lit "is"; lit "the"; lit "is"]).
  { intros w. simpl. tauto. }
  split; [exact H | ].
  apply (@stopwords_as_a_set Example.runtime [lit "the"; lit "is"]
           [lit "is"; lit "the"; lit "is"] (lit "The sky is blue") H).
Defined.


(** X16 at the run without the stopword corpus. *)
Lemma main_aborts_before_loading_witness :
  (os_listdir MoreExamples.run_no_stopwords
   = Raise MoreExamples.lookup_error
   \/ (exists files, os_listdir MoreExamples.run_no_stopwords = Ok files)
      /\ cached_stopwords MoreExamples.run_no_stopwords = None
      /\ (nltk_download MoreExamples.run_no_stopwords
          = Raise MoreExamples.lookup_error
          \/ (exists b, nltk_download MoreExamples.run_no_stopwords = Ok b)
             /\ stopwords_words MoreExamples.run_no_stopwords
                = Raise MoreExamples.lookup_error))
  /\ (let r := main MoreExamples.run_no_stopwords unbound in
      res r = Raise MoreExamples.lookup_error
      /\ objs r = unbound
      /\ opened (log r) = []
      /\ nitter_calls (log r) = []
      /\ predicted_texts (log r) = []).
Proof.
  assert (H : os_listdir MoreExamples.run_no_stopwords
              = Raise MoreExamples.lookup_error
              \/ (exists files,
                     os_listdir MoreExamples.run_no_stopwords = Ok files)
                 /\ cached_stopwords MoreExamples.run_no_stopwords = None
                 /\ (nltk_download MoreExamples.run_no_stopwords
                     = Raise MoreExamples.lookup_error
                     \/ (exists b,
                            nltk_download MoreExamples.run_no_stopwords
                            = Ok b)
                        /\ stopwords_words MoreExamples.run_no_stopwords
                           = Raise MoreExamples.lookup_error)).
  { right. split; [eexists; reflexivity | ]. split; [reflexivity | ].
    right. split; [eexists; reflexivity | reflexivity]. }
  split; [exact H | ].
  apply (@main_aborts_before_loading Example.runtime
           MoreExamples.run_no_stopwords unbound MoreExamples.lookup_error
           H).
Defined.

End MoreRuns.
